(** * GDAX adapter (js/gdax.js): a shallow embedding and its properties

    The adapter is a JavaScript class [gdax extends Exchange].  Its methods
    are embedded as Rocq functions over a small model of JavaScript values:
    numbers are IEEE-754 binary64 (the kernel's primitive floats), objects
    are association lists in insertion order, [undefined] is a value of its
    own.  What the class inherits from the base client ([safeFloat],
    [implodeParams], [hmac], ...) is a field of the record [Exchange]; what
    the JavaScript runtime supplies ([JSON.parse], number/string
    conversions) is a field of the record [Runtime]. *)

From Stdlib Require Import List String Ascii Bool ZArith Lia.
From Stdlib Require Import Numbers.DecimalString.
From Stdlib Require Import Floats.PrimFloat Floats.SpecFloat Floats.FloatOps.
Import ListNotations.

Set Warnings "-inexact-float,-register-all".
Open Scope string_scope.

(** ** JavaScript values *)

Module JS.

Inductive value : Type :=
| VUndef
| VNull
| VBool (b : bool)
| VNum (n : float)
| VStr (s : string)
| VArr (l : list value)
| VObj (o : list (string * value)).

(** An object: own enumerable properties in insertion order. *)
Definition obj : Type := list (string * value).

(** What the language runtime provides and the adapter calls. *)
Record Runtime : Type := {
  (** [Number.prototype.toString] *)
  number_to_string : float -> string;
  (** [ToNumber] on a string *)
  string_to_number : string -> float;
  (** [JSON.parse]; [None] when it raises [SyntaxError] *)
  JSON_parse : string -> option value
}.

(** [o[k]] on an object. *)
Fixpoint get (o : obj) (k : string) : value :=
  match o with
  | [] => VUndef
  | (k', v) :: o' => if String.eqb k' k then v else get o' k
  end.

(** [k in o] *)
Fixpoint has (o : obj) (k : string) : bool :=
  match o with
  | [] => false
  | (k', _) :: o' => if String.eqb k' k then true else has o' k
  end.

(** [o[k] = v]: an existing key keeps its place, a new one goes last. *)
Fixpoint set (o : obj) (k : string) (v : value) : obj :=
  match o with
  | [] => [(k, v)]
  | (k', v') :: o' =>
      if String.eqb k' k then (k', v) :: o' else (k', v') :: set o' k v
  end.

(** [Object.keys (o).length] used as a condition. *)
Definition nonempty (o : obj) : bool :=
  match o with [] => false | _ :: _ => true end.

(** [v[k]] for a value that is neither [undefined] nor [null] and a key
    that is neither an index nor [length]: only objects have it. *)
Definition member (v : value) (k : string) : value :=
  match v with
  | VObj o => get o k
  | _ => VUndef
  end.

(** [typeof v === 'undefined'] *)
Definition is_undefined (v : value) : bool :=
  match v with VUndef => true | _ => false end.

(** [v === s] for a string literal [s]. *)
Definition is_string (v : value) (s : string) : bool :=
  match v with VStr s' => String.eqb s' s | _ => false end.

Section WithRuntime.

Variable rt : Runtime.

(** [ToString] *)
Fixpoint to_string (v : value) : string :=
  match v with
  | VUndef => "undefined"
  | VNull => "null"
  | VBool true => "true"
  | VBool false => "false"
  | VNum n => number_to_string rt n
  | VStr s => s
  | VArr l =>
      (fix join (l : list value) : string :=
         match l with
         | [] => ""
         | x :: r =>
             let sx := match x with
                       | VUndef | VNull => ""
                       | _ => to_string x
                       end in
             match r with
             | [] => sx
             | _ :: _ => sx ++ "," ++ join r
             end
         end) l
  | VObj _ => "[object Object]"
  end.

(** [ToNumber] *)
Definition to_number (v : value) : float :=
  match v with
  | VUndef => nan
  | VNull => 0%float
  | VBool true => 1%float
  | VBool false => 0%float
  | VNum n => n
  | VStr s => string_to_number rt s
  | VArr _ | VObj _ => string_to_number rt (to_string v)
  end.

(** [a * b] *)
Definition mul (a b : value) : value :=
  VNum (PrimFloat.mul (to_number a) (to_number b)).

(** [a - b] *)
Definition sub (a b : value) : value :=
  VNum (PrimFloat.sub (to_number a) (to_number b)).

(** [a + s] where [s] is a string: concatenation after [ToString]. *)
Definition cat (a : value) (s : string) : string := to_string a ++ s.

End WithRuntime.

(** [!v] is false *)
Definition truthy (v : value) : bool :=
  match v with
  | VUndef | VNull => false
  | VBool b => b
  | VNum n => negb (PrimFloat.eqb n 0%float || PrimFloat.is_nan n)
  | VStr s => negb (String.eqb s "")
  | VArr _ | VObj _ => true
  end.

End JS.

Import JS.

(** ** Errors and results *)

(** The error classes the adapter throws (from [./base/errors]) with their
    message, and the two native errors that its own expressions can raise. *)
Inductive exn : Type :=
| ExchangeError (msg : string)
| AuthenticationError (msg : string)
| InsufficientFunds (msg : string)
| InvalidOrder (msg : string)
| NotSupported (msg : string)
| TypeError
| SyntaxError.

Inductive result (A : Type) : Type :=
| Return (a : A)
| Throw (e : exn).

Arguments Return {A} a.
Arguments Throw {A} e.

Definition bind {A B : Type} (r : result A) (k : A -> result B) : result B :=
  match r with
  | Return a => k a
  | Throw e => Throw e
  end.

Notation "x <- r ;; k" := (bind r (fun x => k))
  (at level 61, r at next level, right associativity).

(** ** Awaited calls

    An [async] method is a tree of awaited calls: what it awaits, and how it
    goes on with the answer. *)

Inductive event : Type -> Type :=
| LoadMarkets : event unit
    (** [await this.loadMarkets ()] *)
| PublicGetProducts : event (list obj)
    (** [await this.publicGetProducts ()]: the product list *)
| Invoke (method : string) (params : obj) : event value.
    (** [await this[method] (params)]: an endpoint method called by name *)

Inductive prog (A : Type) : Type :=
| Done (r : result A)
| Await {T : Type} (e : event T) (k : T -> prog A).

Arguments Done {A} r.
Arguments Await {A T} e k.

(** One awaited call, as it shows in a trace. *)
Inductive entry : Type :=
| Awaited {T : Type} (e : event T).

(** Whether a trace entry is a call of an endpoint of the exchange. *)
Definition is_request (x : entry) : bool :=
  match x with
  | Awaited LoadMarkets => false
  | Awaited PublicGetProducts => true
  | Awaited (Invoke _ _) => true
  end.

(** Running a program against the answers [h] of the outside world: the
    calls it awaited, in order, and how it ended. *)
Fixpoint run {A : Type} (h : forall T, event T -> T) (p : prog A)
  : list entry * result A :=
  match p with
  | Done r => ([], r)
  | Await e k => let (t, r) := run h (k (h _ e)) in (Awaited e :: t, r)
  end.

(** ** The instance: configuration and inherited methods *)

Record Exchange : Type := {
  (** configuration, set from [describe ()] and the user's options *)
  id : string;
  apiKey : value;
  secret : value;
  password : value;
  urls_api : string;                    (* this.urls['api'] *)
  fees_trading : obj;                   (* this.fees['trading'] *)
  timeframes : obj;
  markets_by_id : list (string * obj);
  (** the next value of [this.nonce ()] *)
  nonce : float;
  (** methods inherited from the base client *)
  safeFloat : obj -> string -> value;
  safeString : obj -> value -> value -> value;
  precisionFromString : value -> value;
  parse8601 : value -> value;
  iso8601 : value -> value;
  YmdHMS : value -> value;
  sum : value -> value -> value;
  market : value -> result obj;
  parseOHLCVs : value -> obj -> string -> value -> value -> value;
  implodeParams : string -> obj -> string;
  extractParams : string -> list string;
  omit : obj -> list string -> obj;
  urlencode : obj -> string;
  json : value -> string;
  encode : string -> string;
  decode : string -> string;
  base64ToBinary : value -> string;
  hmac : string -> string -> string -> string -> string;
  (** how [this.checkRequiredCredentials ()] ends on this instance: it
      returns, or throws for a credential that is not set *)
  checkRequiredCredentials : result unit
}.

(** Modelled from the spec: [this.extend (a, b)] of the base client, absent
    from the sources, is the shallow merge of [a] and [b] into a new object
    in which a key of [b] overrides the same key of [a] (the fee defaults
    are "merged via shallow-extend", the taker fee is "overridden"). *)
Definition extend (a b : obj) : obj :=
  fold_left (fun acc kv => set acc (fst kv) (snd kv)) b a.

(** ** The tables of [describe ()] *)

Definition describe_timeframes : obj :=
  [ ("1m", VNum 60); ("5m", VNum 300); ("15m", VNum 900);
    ("30m", VNum 1800); ("1h", VNum 3600); ("2h", VNum 7200);
    ("4h", VNum 14400); ("12h", VNum 43200); ("1d", VNum 86400);
    ("1w", VNum 604800); ("1M", VNum 2592000); ("1y", VNum 31536000) ].

Definition describe_fees_trading : obj :=
  [ ("tierBased", VBool true);
    ("percentage", VBool true);
    ("maker", VNum 0.0);
    ("taker", VNum (0.25 / 100)) ].

Definition describe_urls_api : string := "https://api.gdax.com".

Definition describe_id : string := "gdax".

(** The endpoints of ['api'] in [describe ()]: the API, the HTTP verb and
    the path of each. *)
Definition describe_api : list (string * string * list string) :=
  [ ("public", "get",
     [ "currencies";
       "products";
       "products/{id}/book";
       "products/{id}/candles";
       "products/{id}/stats";
       "products/{id}/ticker";
       "products/{id}/trades";
       "time" ]);
    ("private", "get",
     [ "accounts";
       "accounts/{id}";
       "accounts/{id}/holds";
       "accounts/{id}/ledger";
       "accounts/{id}/transfers";
       "coinbase-accounts";
       "fills";
       "funding";
       "orders";
       "orders/{id}";
       "payment-methods";
       "position";
       "reports/{id}";
       "users/self/trailing-volume" ]);
    ("private", "post",
     [ "deposits/coinbase-account";
       "deposits/payment-method";
       "funding/repay";
       "orders";
       "position/close";
       "profiles/margin-transfer";
       "reports";
       "withdrawals/coinbase";
       "withdrawals/crypto";
       "withdrawals/payment-method" ]);
    ("private", "delete",
     [ "orders";
       "orders/{id}" ]) ].

(** ** The endpoint methods

    The class calls its endpoints as methods: [this.publicGetProducts],
    [this.privatePostOrders], [this[method]].  The base client makes them
    from the table above. *)

Definition is_alphanumeric (c : ascii) : bool :=
  let n := nat_of_ascii c in
  (Nat.leb 48 n && Nat.leb n 57)
  || (Nat.leb 65 n && Nat.leb n 90)
  || (Nat.leb 97 n && Nat.leb n 122).

Definition capital (c : ascii) : ascii :=
  let n := nat_of_ascii c in
  if Nat.leb 97 n && Nat.leb n 122 then ascii_of_nat (n - 32) else c.

(** The words of a path, each with a capital first letter, joined: a new
    word starts after every character that is no letter and no digit. *)
Fixpoint capitalized_words (s : string) (start : bool) : string :=
  match s with
  | EmptyString => EmptyString
  | String c r =>
      if is_alphanumeric c then
        String (if start then capital c else c) (capitalized_words r false)
      else capitalized_words r true
  end.

(** Modelled from the spec: the code of the base client that defines the
    endpoint methods is absent from the sources.  The methods that the
    class calls show the rule - one method per entry of the table, named
    by the API, the verb and the words of the path, the last two
    capitalized: [products/{id}/candles] under public get is
    [publicGetProductsIdCandles], [deposits/coinbase-account] under
    private post is [privatePostDepositsCoinbaseAccount]. *)
Definition endpoint_method (api verb path : string) : string :=
  api ++ capitalized_words verb true ++ capitalized_words path true.

Definition endpoint_methods : list string :=
  flat_map
    (fun entry : string * string * list string =>
       let '(api, verb, paths) := entry in
       map (endpoint_method api verb) paths)
    describe_api.

(** Whether [this[method]] is an endpoint method. *)
Definition is_endpoint_method (method : string) : bool :=
  existsb (String.eqb method) endpoint_methods.

(** [await this[method] (params)] for a name that is computed: calling
    what is not there raises [TypeError], and nothing is awaited. *)
Definition call_by_name {A : Type} (method : string) (params : obj)
    (k : value -> prog A) : prog A :=
  if is_endpoint_method method then Await (Invoke method params) k
  else Done (Throw TypeError).

(** ** The methods of the class *)

Section Gdax.

Variable rt : Runtime.
Variable this : Exchange.

(** [parseOHLCV (ohlcv, market, timeframe, since, limit)]: the row is an
    array; an index past its end reads [undefined]. *)
Definition parseOHLCV (ohlcv : list value) (market : option obj)
    (timeframe : string) (since limit : value) : list value :=
  let at_ i := nth i ohlcv VUndef in
  [ mul rt (at_ 0%nat) (VNum 1000);
    at_ 3%nat;
    at_ 2%nat;
    at_ 1%nat;
    at_ 4%nat;
    at_ 5%nat ].

(** [this.markets_by_id[k]] when [k in this.markets_by_id]. *)
Fixpoint lookup_market (ms : list (string * obj)) (k : string) : option obj :=
  match ms with
  | [] => None
  | (k', m) :: ms' => if String.eqb k' k then Some m else lookup_market ms' k
  end.

(** [parseTrade (trade, market)] *)
Definition parseTrade (trade : obj) (market : option obj) : obj :=
  let timestamp :=
    if has trade "time" then parse8601 this (get trade "time")
    else if has trade "created_at" then parse8601 this (get trade "created_at")
    else VUndef in
  let iso8601_ :=
    if negb (is_undefined timestamp) then iso8601 this timestamp else VUndef in
  let side := if is_string (get trade "side") "buy" then "sell" else "buy" in
  let market :=
    match market with
    | Some m => Some m
    | None =>
        if has trade "product_id" then
          let marketId := get trade "product_id" in
          lookup_market (markets_by_id this) (to_string rt marketId)
        else None
    end in
  let symbol :=
    match market with Some m => get m "symbol" | None => VUndef end in
  let fee :=
    if has trade "fill_fees" then
      let feeCurrency :=
        match market with Some m => get m "quote" | None => VUndef end in
      VObj [ ("cost", safeFloat this trade "fill_fees");
             ("currency", feeCurrency);
             ("rate", VUndef) ]
    else VUndef in
  let type :=
    if has trade "liquidity" then
      if is_string (get trade "liquidity") "T" then VStr "Taker"
      else VStr "Maker"
    else VUndef in
  let id := safeString this trade (VStr "trade_id") VUndef in
  let orderId := safeString this trade (VStr "order_id") VUndef in
  [ ("id", id);
    ("order", orderId);
    ("info", VObj trade);
    ("timestamp", timestamp);
    ("datetime", iso8601_);
    ("symbol", symbol);
    ("type", type);
    ("side", VStr side);
    ("price", safeFloat this trade "price");
    ("amount", safeFloat this trade "size");
    ("fee", fee) ].

(** [parseOrderStatus (status)] *)
Definition parseOrderStatus (status : value) : value :=
  let statuses : obj :=
    [ ("pending", VStr "open");
      ("active", VStr "open");
      ("open", VStr "open");
      ("done", VStr "closed");
      ("canceled", VStr "canceled") ] in
  safeString this statuses status status.

(** [parseOrder (order, market)] *)
Definition parseOrder (order : obj) (market : option obj) : obj :=
  let timestamp := parse8601 this (get order "created_at") in
  let market :=
    match market with
    | Some m => Some m
    | None =>
        lookup_market (markets_by_id this)
          (to_string rt (get order "product_id"))
    end in
  let status := parseOrderStatus (get order "status") in
  let price := safeFloat this order "price" in
  let amount := safeFloat this order "size" in
  let amount :=
    if is_undefined amount then safeFloat this order "funds" else amount in
  let amount :=
    if is_undefined amount then safeFloat this order "specified_funds"
    else amount in
  let filled := safeFloat this order "filled_size" in
  let remaining :=
    if negb (is_undefined amount) then
      if negb (is_undefined filled) then sub rt amount filled else VUndef
    else VUndef in
  let cost := safeFloat this order "executed_value" in
  let fee :=
    VObj [ ("cost", safeFloat this order "fill_fees");
           ("currency", VUndef);
           ("rate", VUndef) ] in
  let symbol :=
    match market with Some m => get m "symbol" | None => VUndef end in
  [ ("id", get order "id");
    ("info", VObj order);
    ("timestamp", timestamp);
    ("datetime", iso8601 this timestamp);
    ("status", status);
    ("symbol", symbol);
    ("type", get order "type");
    ("side", get order "side");
    ("price", price);
    ("cost", cost);
    ("amount", amount);
    ("filled", filled);
    ("remaining", remaining);
    ("fee", fee) ].

(** [fetchMarkets ()]: the loop pushes one market per product, in order. *)
Definition fetchMarkets : prog (list value) :=
  Await PublicGetProducts (fun markets =>
    Done (Return
      (map (fun market : obj =>
         let id := get market "id" in
         let base := get market "base_currency" in
         let quote := get market "quote_currency" in
         let symbol := to_string rt base ++ "/" ++ to_string rt quote in
         let priceLimits :=
           VObj [ ("min", safeFloat this market "quote_increment");
                  ("max", VUndef) ] in
         let precision :=
           VObj [ ("amount", VNum 8);
                  ("price",
                   precisionFromString this
                     (safeString this market (VStr "quote_increment") VUndef)) ] in
         let taker := get (fees_trading this) "taker" in
         let taker :=
           if is_string base "ETH" || is_string base "LTC" then VNum 0.003
           else taker in
         let active := is_string (get market "status") "online" in
         VObj (extend (fees_trading this)
           [ ("id", id);
             ("symbol", VStr symbol);
             ("base", base);
             ("quote", quote);
             ("precision", precision);
             ("limits",
              VObj [ ("amount",
                      VObj [ ("min", safeFloat this market "base_min_size");
                             ("max", safeFloat this market "base_max_size") ]);
                     ("price", priceLimits);
                     ("cost",
                      VObj [ ("min", safeFloat this market "min_market_funds");
                             ("max", safeFloat this market "max_market_funds") ]) ]);
             ("taker", taker);
             ("active", VBool active);
             ("info", VObj market) ]))
         markets))).

(** The object [request] and the value of [limit] that [fetchOHLCV] has
    built when it calls the endpoint. *)
Definition fetchOHLCV_request (market : obj) (timeframe : string)
    (since limit : value) : obj * value :=
  let granularity := get (timeframes this) timeframe in
  let request := [ ("id", get market "id"); ("granularity", granularity) ] in
  if negb (is_undefined since) then
    let request := set request "start" (YmdHMS this since) in
    let limit := if is_undefined limit then VNum 350 else limit in
    let request :=
      set request "end"
        (YmdHMS this
           (sum this (mul rt (mul rt limit granularity) (VNum 1000)) since)) in
    (request, limit)
  else (request, limit).

(** [fetchOHLCV (symbol, timeframe, since, limit, params)] *)
Definition fetchOHLCV (symbol : value) (timeframe : string)
    (since limit : value) (params : obj) : prog value :=
  Await LoadMarkets (fun _ =>
    match market this symbol with
    | Throw e => Done (Throw e)
    | Return market =>
        let (request, limit) :=
          fetchOHLCV_request market timeframe since limit in
        Await (Invoke "publicGetProductsIdCandles" (extend request params))
          (fun response =>
             Done (Return
               (parseOHLCVs this response market timeframe since limit)))
    end).

(** [deposit (currency, amount, address, params)] *)
Definition deposit (currency amount address : value) (params : obj)
  : prog obj :=
  Await LoadMarkets (fun _ =>
    let request := [ ("currency", currency); ("amount", amount) ] in
    let method := "privatePostDeposits" in
    let method :=
      if has params "payment_method_id" then
        Return (method ++ "PaymentMethod")
      else if has params "coinbase_account_id" then
        Return (method ++ "CoinbaseAccount")
      else
        Throw (NotSupported
          (id this ++
           " deposit() requires one of `coinbase_account_id` or `payment_method_id` extra params")) in
    match method with
    | Throw e => Done (Throw e)
    | Return method =>
        call_by_name method (extend request params) (fun response =>
          if negb (truthy response) then
            Done (Throw (ExchangeError
              (id this ++ " deposit() error: " ++ json this response)))
          else
            Done (Return [ ("info", response);
                           ("id", member response "id") ]))
    end).

(** [withdraw (currency, amount, address, tag, params)] *)
Definition withdraw (currency amount address tag : value) (params : obj)
  : prog obj :=
  Await LoadMarkets (fun _ =>
    let request := [ ("currency", currency); ("amount", amount) ] in
    let method := "privatePostWithdrawals" in
    let (method, request) :=
      if has params "payment_method_id" then
        (method ++ "PaymentMethod", request)
      else if has params "coinbase_account_id" then
        (method ++ "CoinbaseAccount", request)
      else
        (method ++ "Crypto", set request "crypto_address" address) in
    call_by_name method (extend request params) (fun response =>
      if negb (truthy response) then
        Done (Throw (ExchangeError
          (id this ++ " withdraw() error: " ++ json this response)))
      else
        Done (Return [ ("info", response);
                       ("id", member response "id") ]))).

(** What [sign] returns. *)
Record descriptor : Type := {
  url : string;
  method : string;
  body : value;
  headers : value
}.

(** The path and query part of the URL: the local [request] of [sign]. *)
Definition sign_request (path method : string) (params : obj) : string :=
  let request := "/" ++ implodeParams this path params in
  let query := omit this params (extractParams this path) in
  if String.eqb method "GET" then
    if nonempty query then request ++ "?" ++ urlencode this query
    else request
  else request.

(** [sign (path, api, method, params, headers, body)] *)
Definition sign (path api method : string) (params : obj)
    (headers body : value) : result descriptor :=
  let request := sign_request path method params in
  let query := omit this params (extractParams this path) in
  let url := urls_api this ++ request in
  if String.eqb api "private" then
    _ <- checkRequiredCredentials this ;;
    let nonce := number_to_string rt (nonce this) in
    let (body, payload) :=
      if negb (String.eqb method "GET") then
        if nonempty query then
          let body := json this (VObj query) in
          (VStr body, body)
        else (body, "")
      else (body, "") in
    let what := nonce ++ method ++ request ++ payload in
    let secret := base64ToBinary this (secret this) in
    let signature := hmac this (encode this what) secret "sha256" "base64" in
    let headers :=
      VObj [ ("CB-ACCESS-KEY", apiKey this);
             ("CB-ACCESS-SIGN", VStr (decode this signature));
             ("CB-ACCESS-TIMESTAMP", VStr nonce);
             ("CB-ACCESS-PASSPHRASE", password this);
             ("Content-Type", VStr "application/json") ] in
    Return {| url := url; method := method; body := body; headers := headers |}
  else
    Return {| url := url; method := method; body := body; headers := headers |}.

(** [v[k]] where [v] may be [undefined] or [null] (same keys as [member]). *)
Definition property (v : value) (k : string) : result value :=
  match v with
  | VUndef | VNull => Throw TypeError
  | _ => Return (member v k)
  end.

(** [s.indexOf (needle)] on a string: the first position, or -1. *)
Definition indexOf (s needle : string) : Z :=
  match String.index 0 needle s with
  | Some n => Z.of_nat n
  | None => (-1)%Z
  end.

(** [message.indexOf (needle) >= 0] for a string literal [needle]: a string
    searches a substring, an array an element; nothing else has the
    method. *)
Definition indexOf_found (message : value) (needle : string) : result bool :=
  match message with
  | VStr s => Return (0 <=? indexOf s needle)%Z
  | VArr l => Return (existsb (fun x => is_string x needle) l)
  | _ => Throw TypeError
  end.

(** [handleErrors (code, reason, url, method, headers, body)] *)
Definition handleErrors (code : Z) (reason url method : string)
    (headers : value) (body : string) : result unit :=
  if (code =? 400)%Z then
    match String.get 0 body with
    | Some "{"%char =>
        match JSON_parse rt body with
        | None => Throw SyntaxError
        | Some response =>
            message <- property response "message" ;;
            let error := id this ++ " " ++ to_string rt message in
            small <- indexOf_found message "price too small" ;;
            if small then Throw (InvalidOrder error)
            else
              precise <- indexOf_found message "price too precise" ;;
              if precise then Throw (InvalidOrder error)
              else if is_string message "Insufficient funds" then
                Throw (InsufficientFunds error)
              else if is_string message "Invalid API Key" then
                Throw (AuthenticationError error)
              else
                Throw (ExchangeError (id this ++ " " ++ to_string rt message))
        end
    | _ => Throw (ExchangeError (id this ++ " " ++ body))
    end
  else Return tt.

End Gdax.

(** ** A host to run the methods on

    A runtime and an instance on which the methods above evaluate, for the
    examples that follow.  The conversions cover what the examples use:
    integers, and JSON objects whose members are plain strings.  Inherited
    methods whose result is a date, a digest or an encoding answer with a
    string that names the call and its arguments. *)

Module Sample.

Definition quote : string := String (ascii_of_nat 34) EmptyString.

Definition quoted (s : string) : string := quote ++ s ++ quote.

Definition integer_of (f : float) : option Z :=
  match Prim2SF f with
  | S754_zero _ => Some 0%Z
  | S754_finite s m e =>
      let z :=
        if (0 <=? e)%Z then Some (Z.pos m * 2 ^ e)%Z
        else if (Z.pos m mod 2 ^ (- e) =? 0)%Z then Some (Z.pos m / 2 ^ (- e))%Z
        else None in
      option_map (fun z => if s then (- z)%Z else z) z
  | _ => None
  end.

(** Integers print in decimal; the examples print no other number. *)
Definition print_number (f : float) : string :=
  match integer_of f with
  | Some z => NilEmpty.string_of_int (Z.to_int z)
  | None => "NaN"
  end.

(** The digits of a decimal numeral without its point, and how many of them
    stand after the point. *)
Fixpoint decimal_parts (s : string) (seen_point : bool)
  : option (string * nat) :=
  match s with
  | EmptyString => Some (EmptyString, O)
  | String c r =>
      if Ascii.eqb c "." then
        if seen_point then None else decimal_parts r true
      else
        let n := nat_of_ascii c in
        if Nat.leb 48 n && Nat.leb n 57 then
          match decimal_parts r seen_point with
          | Some (digits, k) =>
              Some (String c digits, if seen_point then S k else k)
          | None => None
          end
        else None
  end.

Definition float_of_Z (z : Z) : float :=
  SF2Prim (binary_normalize prec emax z 0 false).

(** Unsigned decimal numerals [digits.digits] whose digits and scale are
    exact numbers convert by one division, which rounds as the language
    does; the examples convert no other string. *)
Definition read_number (s : string) : float :=
  match decimal_parts s false with
  | Some (String c digits, k) =>
      match NilEmpty.uint_of_string (String c digits) with
      | Some d =>
          let m := Z.of_uint d in
          if (m <? 2 ^ 53)%Z && Nat.leb k 22 then
            float_of_Z m / float_of_Z (10 ^ Z.of_nat k)
          else nan
      | None => nan
      end
  | _ => nan
  end.

Definition is_space (c : ascii) : bool :=
  let n := nat_of_ascii c in
  Nat.eqb n 32 || Nat.eqb n 9 || Nat.eqb n 10 || Nat.eqb n 13.

Fixpoint skip_spaces (s : string) : string :=
  match s with
  | String c r => if is_space c then skip_spaces r else s
  | EmptyString => EmptyString
  end.

(** The characters up to the closing quote, and what follows it; no escape
    sequences. *)
Fixpoint string_body (s : string) : option (string * string) :=
  match s with
  | EmptyString => None
  | String c r =>
      let n := nat_of_ascii c in
      if Nat.eqb n 34 then Some (EmptyString, r)
      else if Nat.eqb n 92 || Nat.ltb n 32 then None
      else
        match string_body r with
        | Some (t, r') => Some (String c t, r')
        | None => None
        end
  end.

Definition string_literal (s : string) : option (string * string) :=
  match s with
  | String c r => if Nat.eqb (nat_of_ascii c) 34 then string_body r else None
  | EmptyString => None
  end.

Fixpoint members (fuel : nat) (s : string) (acc : obj)
  : option (obj * string) :=
  match fuel with
  | O => None
  | S fuel' =>
      match string_literal (skip_spaces s) with
      | None => None
      | Some (k, r) =>
          match skip_spaces r with
          | String ":" r1 =>
              match string_literal (skip_spaces r1) with
              | None => None
              | Some (v, r2) =>
                  let acc := set acc k (VStr v) in
                  match skip_spaces r2 with
                  | String "," r3 => members fuel' r3 acc
                  | String "}" r3 => Some (acc, r3)
                  | _ => None
                  end
              end
          | _ => None
          end
      end
  end.

(** [JSON.parse] on objects whose members are strings without escapes;
    [None] on text that is not JSON. *)
Definition parse_json (s : string) : option value :=
  let finish (o : obj) (r : string) :=
    match skip_spaces r with
    | EmptyString => Some (VObj o)
    | _ => None
    end in
  match skip_spaces s with
  | String "{" r =>
      match skip_spaces r with
      | String "}" r' => finish [] r'
      | _ =>
          match members (String.length s) r [] with
          | Some (o, r') => finish o r'
          | None => None
          end
      end
  | _ => None
  end.

Definition runtime : Runtime :=
  {| number_to_string := print_number;
     string_to_number := read_number;
     JSON_parse := parse_json |}.

(** The body [{"message":"..."}] of an error response. *)
Definition message_body (message : string) : string :=
  "{" ++ quoted "message" ++ ":" ++ quoted message ++ "}".

Definition call (f : string) (args : list string) : string :=
  f ++ "(" ++ String.concat "," args ++ ")".

Definition safe_float (o : obj) (k : string) : value :=
  match get o k with
  | VNum n => if PrimFloat.is_nan n then VUndef else VNum n
  | VStr s =>
      let n := read_number s in
      if PrimFloat.is_nan n then VUndef else VNum n
  | _ => VUndef
  end.

Definition safe_string (o : obj) (k default : value) : value :=
  match get o (to_string runtime k) with
  | VStr s => VStr s
  | VNum n => VStr (print_number n)
  | _ => default
  end.

(** [string.replace (pattern, by)]: the first occurrence. *)
Definition replace_first (pattern by_ s : string) : string :=
  match String.index 0 pattern s with
  | Some n =>
      String.substring 0 n s ++ by_ ++
      String.substring (n + String.length pattern)
        (String.length s - n - String.length pattern) s
  | None => s
  end.

Definition implode_params (path : string) (params : obj) : string :=
  fold_left
    (fun path kv =>
       replace_first ("{" ++ fst kv ++ "}") (to_string runtime (snd kv)) path)
    params path.

(** The names between braces, in order. *)
Fixpoint extract_params_from (s : string) (inside : option string)
  : list string :=
  match s with
  | EmptyString => []
  | String c r =>
      match inside with
      | None =>
          if Ascii.eqb c "{" then extract_params_from r (Some EmptyString)
          else extract_params_from r None
      | Some name =>
          if Ascii.eqb c "}" then name :: extract_params_from r None
          else extract_params_from r (Some (name ++ String c EmptyString))
      end
  end.

Definition extract_params (path : string) : list string :=
  extract_params_from path None.

Definition omit_keys (o : obj) (keys : list string) : obj :=
  filter (fun kv => negb (existsb (String.eqb (fst kv)) keys)) o.

Definition url_encode (o : obj) : string :=
  String.concat "&"
    (map (fun kv => fst kv ++ "=" ++ to_string runtime (snd kv)) o).

(** [JSON.stringify] on strings without escapes, integers and what is built
    from them. *)
Fixpoint to_json (v : value) : string :=
  match v with
  | VUndef => "undefined"
  | VNull => "null"
  | VBool true => "true"
  | VBool false => "false"
  | VNum n => print_number n
  | VStr s => quoted s
  | VArr l => "[" ++ String.concat "," (map to_json l) ++ "]"
  | VObj o =>
      "{" ++
      String.concat ","
        ((fix members (o : list (string * value)) : list string :=
            match o with
            | [] => []
            | (k, x) :: o' => (quoted k ++ ":" ++ to_json x) :: members o'
            end) o)
      ++ "}"
  end.

(** Digits after the decimal point. *)
Definition precision_from_string (v : value) : value :=
  match v with
  | VStr s =>
      match String.index 0 "." s with
      | Some n => VNum (float_of_Z (Z.of_nat (String.length s - n - 1)))
      | None => VNum 0
      end
  | _ => VUndef
  end.

Definition symbolic (f : string) (v : value) : value :=
  VStr (call f [to_string runtime v]).

Definition add_defined (a b : value) : value :=
  match a, b with
  | VNum x, VNum y => VNum (0 + x + y)
  | VNum x, _ => VNum (0 + x)
  | _, VNum y => VNum (0 + y)
  | _, _ => VUndef
  end.

Definition btc_usd : obj :=
  [ ("id", VStr "BTC-USD"); ("symbol", VStr "BTC/USD");
    ("base", VStr "BTC"); ("quote", VStr "USD") ].

Definition find_market (symbol : value) : result obj :=
  if is_string symbol "BTC/USD" then Return btc_usd
  else Throw (ExchangeError
         (describe_id ++ " No market symbol " ++ to_string runtime symbol)).

Definition parse_rows (response : value) (m : obj) (timeframe : string)
    (since limit : value) : value :=
  match response with
  | VArr rows =>
      VArr (map (fun row =>
                   match row with
                   | VArr l =>
                       VArr (parseOHLCV runtime l (Some m) timeframe
                               since limit)
                   | _ => row
                   end) rows)
  | _ => VArr []
  end.

Definition exchange : Exchange :=
  {| id := describe_id;
     apiKey := VStr "key";
     secret := VStr "c2VjcmV0";
     password := VStr "passphrase";
     urls_api := describe_urls_api;
     fees_trading := describe_fees_trading;
     timeframes := describe_timeframes;
     markets_by_id := [ ("BTC-USD", btc_usd) ];
     nonce := 1514764800;
     safeFloat := safe_float;
     safeString := safe_string;
     precisionFromString := precision_from_string;
     parse8601 := symbolic "parse8601";
     iso8601 := symbolic "iso8601";
     YmdHMS := symbolic "YmdHMS";
     sum := add_defined;
     market := find_market;
     parseOHLCVs := parse_rows;
     implodeParams := implode_params;
     extractParams := extract_params;
     omit := omit_keys;
     urlencode := url_encode;
     json := to_json;
     encode := fun s => s;
     decode := fun s => s;
     base64ToBinary := fun v => call "base64ToBinary" [to_string runtime v];
     hmac := fun what key algorithm digest =>
               call "hmac" [what; key; algorithm; digest];
     checkRequiredCredentials := Return tt |}.

(** The answers of the exchange in the examples. *)
Definition answers (T : Type) (e : event T) : T :=
  match e with
  | LoadMarkets => tt
  | PublicGetProducts =>
      [ [ ("id", VStr "BTC-USD"); ("base_currency", VStr "BTC");
          ("quote_currency", VStr "USD"); ("quote_increment", VStr "0.01");
          ("status", VStr "online") ];
        [ ("id", VStr "ETH-USD"); ("base_currency", VStr "ETH");
          ("quote_currency", VStr "USD"); ("quote_increment", VStr "0.01");
          ("status", VStr "online") ] ]
  | Invoke method params => VObj [ ("id", VStr "1"); ("method", VStr method) ]
  end.

End Sample.

(** ** The other methods of the class

    The methods that send one request and hand the answer to an inherited
    parser.  What they inherit beyond [Exchange] is a field of
    [Inherited]. *)

Record Inherited : Type := {
  marketId : value -> result value;
  parseTrades : value -> option obj -> value -> value -> value;
  parseOrders : value -> option obj -> value -> value -> value;
  parseOrderBook : value -> value
}.

(** [k in v] for a key that is neither an index nor [length]: an object
    has it or not, an array has not, and anything else raises. *)
Definition in_ (k : string) (v : value) : result bool :=
  match v with
  | VObj o => Return (has o k)
  | VArr _ => Return false
  | _ => Throw TypeError
  end.

Section GdaxRequests.

Variable this : Exchange.
Variable base : Inherited.

(** [fetchOrderBook (symbol, params)] *)
Definition fetchOrderBook (symbol : value) (params : obj) : prog value :=
  Await LoadMarkets (fun _ =>
    match marketId base symbol with
    | Throw e => Done (Throw e)
    | Return id_ =>
        Await (Invoke "publicGetProductsIdBook"
                 (extend [ ("id", id_); ("level", VNum 2) ] params))
          (fun orderbook => Done (Return (parseOrderBook base orderbook)))
    end).

(** [fetchMyTrades (symbol, since, limit, params)] *)
Definition fetchMyTrades (symbol since limit : value) (params : obj)
  : prog value :=
  Await LoadMarkets (fun _ =>
    let request : obj := [] in
    let resolved :=
      if negb (is_undefined symbol) then
        found <- market this symbol ;;
        Return (Some found, set request "product_id" (get found "id"))
      else Return (None, request) in
    match resolved with
    | Throw e => Done (Throw e)
    | Return (market, request) =>
        let request :=
          if negb (is_undefined limit) then set request "limit" limit
          else request in
        Await (Invoke "privateGetFills" (extend request params))
          (fun response =>
             Done (Return (parseTrades base response market since limit)))
    end).

(** [fetchTrades (symbol, since, limit, params)] *)
Definition fetchTrades (symbol since limit : value) (params : obj)
  : prog value :=
  Await LoadMarkets (fun _ =>
    match market this symbol with
    | Throw e => Done (Throw e)
    | Return market =>
        Await (Invoke "publicGetProductsIdTrades"
                 (extend [ ("id", get market "id") ] params))
          (fun response =>
             Done (Return
               (parseTrades base response (Some market) since limit)))
    end).

(** [fetchTime ()]; the endpoint method is called without arguments. *)
Definition fetchTime : prog value :=
  Await (Invoke "publicGetTime" []) (fun response =>
    Done (iso <- property response "iso" ;; Return (parse8601 this iso))).

(** [fetchOrders (symbol, since, limit, params)] *)
Definition fetchOrders (symbol since limit : value) (params : obj)
  : prog value :=
  Await LoadMarkets (fun _ =>
    let request : obj := [ ("status", VStr "all") ] in
    let resolved :=
      if truthy symbol then
        found <- market this symbol ;;
        Return (Some found, set request "product_id" (get found "id"))
      else Return (None, request) in
    match resolved with
    | Throw e => Done (Throw e)
    | Return (market, request) =>
        Await (Invoke "privateGetOrders" (extend request params))
          (fun response =>
             Done (Return (parseOrders base response market since limit)))
    end).

(** [fetchOpenOrders (symbol, since, limit, params)] *)
Definition fetchOpenOrders (symbol since limit : value) (params : obj)
  : prog value :=
  Await LoadMarkets (fun _ =>
    let request : obj := [] in
    let resolved :=
      if truthy symbol then
        found <- market this symbol ;;
        Return (Some found, set request "product_id" (get found "id"))
      else Return (None, request) in
    match resolved with
    | Throw e => Done (Throw e)
    | Return (market, request) =>
        Await (Invoke "privateGetOrders" (extend request params))
          (fun response =>
             Done (Return (parseOrders base response market since limit)))
    end).

(** [fetchClosedOrders (symbol, since, limit, params)] *)
Definition fetchClosedOrders (symbol since limit : value) (params : obj)
  : prog value :=
  Await LoadMarkets (fun _ =>
    let request : obj := [ ("status", VStr "done") ] in
    let resolved :=
      if truthy symbol then
        found <- market this symbol ;;
        Return (Some found, set request "product_id" (get found "id"))
      else Return (None, request) in
    match resolved with
    | Throw e => Done (Throw e)
    | Return (market, request) =>
        Await (Invoke "privateGetOrders" (extend request params))
          (fun response =>
             Done (Return (parseOrders base response market since limit)))
    end).

(** [createOrder (market, type, side, amount, price, params)] *)
Definition createOrder (market type side amount price : value)
    (params : obj) : prog obj :=
  Await LoadMarkets (fun _ =>
    match marketId base market with
    | Throw e => Done (Throw e)
    | Return product_id =>
        let order : obj :=
          [ ("product_id", product_id);
            ("side", side);
            ("size", amount);
            ("type", type) ] in
        let order :=
          if is_string type "limit" then set order "price" price else order in
        Await (Invoke "privatePostOrders" (extend order params))
          (fun response =>
             Done (id_ <- property response "id" ;;
                   Return [ ("info", response); ("id", id_) ]))
    end).

(** [cancelOrder (id, symbol, params)] *)
Definition cancelOrder (id_ symbol : value) (params : obj) : prog value :=
  Await LoadMarkets (fun _ =>
    Await (Invoke "privateDeleteOrdersId" [ ("id", id_) ])
      (fun response => Done (Return response))).

(** [getPaymentMethods ()]; the endpoint method is called without
    arguments. *)
Definition getPaymentMethods : prog value :=
  Await (Invoke "privateGetPaymentMethods" []) (fun response =>
    Done (Return response)).

(** [request (path, api, method, params, headers, body)], given how the
    awaited [this.fetch2 (path, api, method, params, headers, body)]
    ended. *)
Definition request (fetched : result value) : result value :=
  response <- fetched ;;
  found <- in_ "message" response ;;
  if found then
    Throw (ExchangeError (id this ++ " " ++ json this response))
  else Return response.

End GdaxRequests.

(** The inherited parsers of the examples: each array element that is an
    object is parsed, with the market that was handed in. *)
Module SampleRequests.

Definition market_id (symbol : value) : result value :=
  found <- Sample.find_market symbol ;; Return (get found "id").

Definition each_object (f : obj -> obj) (response : value) : value :=
  match response with
  | VArr l =>
      VArr (map (fun x => match x with VObj o => VObj (f o) | _ => x end) l)
  | _ => VArr []
  end.

Definition inherited : Inherited :=
  {| marketId := market_id;
     parseTrades := fun response m since limit =>
       each_object (fun o => parseTrade Sample.runtime Sample.exchange o m)
         response;
     parseOrders := fun response m since limit =>
       each_object (fun o => parseOrder Sample.runtime Sample.exchange o m)
         response;
     parseOrderBook := fun orderbook => orderbook |}.

End SampleRequests.

(** ** Definitions that follow the words of the specification *)

(** "Stop at first defined value": the first element that is not
    [undefined], and [undefined] when there is none. *)
Fixpoint first_defined (l : list value) : value :=
  match l with
  | [] => VUndef
  | v :: l' => if is_undefined v then first_defined l' else v
  end.

(** "Message contains": the text occurs somewhere in the message. *)
Definition occurs_in (text message : string) : Prop :=
  exists before after : string, message = before ++ text ++ after.

(** The names under which [fetchMarkets] stores what it computes for a
    product. *)
Definition market_fields : list string :=
  [ "id"; "symbol"; "base"; "quote"; "precision"; "limits"; "taker";
    "active"; "info" ].

(** A trace with at most one call of an endpoint. *)
Definition at_most_one_request (t : list entry) : Prop :=
  (List.length (filter is_request t) <= 1)%nat.

(** A trace that starts with [loadMarkets] and does not load again. *)
Definition loads_markets_first (t : list entry) : Prop :=
  exists rest : list entry,
    t = Awaited LoadMarkets :: rest /\ forallb is_request rest = true.

(** * Properties *)

(** ** Candles *)

(** C1 (as amended).  The candle row [[t,100,90,95,80,1000]] is reshaped to
    [[t*1000,95,90,100,80,1000]], for every number [t]: the second and the
    fourth element change places, the third stays. *)
Theorem parseOHLCV_example :
  forall (rt : Runtime) (t : float) market timeframe since limit,
    parseOHLCV rt
      [VNum t; VNum 100; VNum 90; VNum 95; VNum 80; VNum 1000]
      market timeframe since limit
    = [VNum (t * 1000); VNum 95; VNum 90; VNum 100; VNum 80; VNum 1000].
Proof.
  intros; reflexivity.
Qed.

(** C1, the claim as written fails: at [t = 1] the result is
    [[1000,95,90,100,80,1000]], which is not
    [[t*1000,95,100,90,80,1000]]. *)
Lemma parseOHLCV_example_counterexample :
  let result :=
    parseOHLCV Sample.runtime
      [VNum 1; VNum 100; VNum 90; VNum 95; VNum 80; VNum 1000]
      None "1m" VUndef VUndef in
  result = [VNum 1000; VNum 95; VNum 90; VNum 100; VNum 80; VNum 1000]
  /\ result
     <> [VNum (1 * 1000); VNum 95; VNum 100; VNum 90; VNum 80; VNum 1000].
Proof.
  cbv zeta. split.
  - vm_compute. reflexivity.
  - intro H.
    apply (f_equal (fun row =>
             match nth 2 row VUndef with
             | VNum high => PrimFloat.eqb high 100
             | _ => false
             end)) in H.
    vm_compute in H.
    discriminate H.
Qed.

(** C2.  A six-element row [[time, low, high, open, close, volume]] becomes
    [[time * 1000, open, high, low, close, volume]]. *)
Theorem parseOHLCV_permutes :
  forall (rt : Runtime) (time low high open close volume : value)
         market timeframe since limit,
    parseOHLCV rt [time; low; high; open; close; volume]
      market timeframe since limit
    = [VNum (to_number rt time * 1000); open; high; low; close; volume].
Proof.
  intros; reflexivity.
Qed.

(** ** Objects *)

Lemma is_string_true (v : value) (s : string) :
  is_string v s = true <-> v = VStr s.
Proof.
  destruct v; simpl; try (split; [discriminate | intro H; discriminate H]).
  rewrite String.eqb_eq.
  split; intro H; [now subst | now injection H].
Qed.

Lemma is_string_false (v : value) (s : string) :
  is_string v s = false <-> v <> VStr s.
Proof.
  rewrite <- is_string_true.
  destruct (is_string v s); split; congruence.
Qed.

Lemma is_undefined_false (v : value) :
  is_undefined v = false <-> v <> VUndef.
Proof.
  destruct v; simpl; split; congruence.
Qed.

Lemma get_set_same (o : obj) (k : string) (v : value) :
  get (set o k v) k = v.
Proof.
  induction o as [| [k' v'] o IH]; simpl.
  - now rewrite String.eqb_refl.
  - destruct (String.eqb k' k) eqn:E; simpl; rewrite E; auto.
Qed.

Lemma get_set_other (o : obj) (k k' : string) (v : value) :
  k <> k' -> get (set o k v) k' = get o k'.
Proof.
  intro N.
  induction o as [| [k0 v0] o IH]; simpl.
  - apply String.eqb_neq in N. now rewrite N.
  - destruct (String.eqb k0 k) eqn:E; simpl.
    + apply String.eqb_eq in E; subst k0.
      apply String.eqb_neq in N. now rewrite N.
    + now rewrite IH.
Qed.

Lemma has_set_same (o : obj) (k : string) (v : value) :
  has (set o k v) k = true.
Proof.
  induction o as [| [k' v'] o IH]; simpl.
  - now rewrite String.eqb_refl.
  - destruct (String.eqb k' k) eqn:E; simpl; rewrite E; auto.
Qed.

Lemma has_set_other (o : obj) (k k' : string) (v : value) :
  k <> k' -> has (set o k v) k' = has o k'.
Proof.
  intro N.
  induction o as [| [k0 v0] o IH]; simpl.
  - apply String.eqb_neq in N. now rewrite N.
  - destruct (String.eqb k0 k) eqn:E; simpl.
    + apply String.eqb_eq in E; subst k0.
      apply String.eqb_neq in N. now rewrite N.
    + now rewrite IH.
Qed.

(** A key that the second object lacks is read from the first. *)
Lemma get_extend_absent (a b : obj) (k : string) :
  has b k = false -> get (extend a b) k = get a k.
Proof.
  unfold extend. revert a.
  induction b as [| [k' v'] b IH]; intros a H; simpl in *.
  - reflexivity.
  - destruct (String.eqb k' k) eqn:E; [discriminate |].
    rewrite IH by assumption.
    apply get_set_other. now apply String.eqb_neq.
Qed.

Lemma has_extend_absent (a b : obj) (k : string) :
  has b k = false -> has (extend a b) k = has a k.
Proof.
  unfold extend. revert a.
  induction b as [| [k' v'] b IH]; intros a H; simpl in *.
  - reflexivity.
  - destruct (String.eqb k' k) eqn:E; [discriminate |].
    rewrite IH by assumption.
    apply has_set_other. now apply String.eqb_neq.
Qed.

(** The last binding of a key in the second object is the one read. *)
Lemma get_extend_last (a b1 b2 : obj) (k : string) (v : value) :
  has b2 k = false -> get (extend a (b1 ++ (k, v) :: b2)%list) k = v.
Proof.
  intro H. unfold extend.
  rewrite fold_left_app. simpl.
  change (get (extend (set (fold_left (fun acc kv => set acc (fst kv) (snd kv)) b1 a) k v) b2) k = v).
  rewrite get_extend_absent by assumption.
  apply get_set_same.
Qed.

(** ** Trades *)

Lemma parseTrade_side (rt : Runtime) (this : Exchange) (trade : obj)
    (market : option obj) :
  get (parseTrade rt this trade market) "side"
  = VStr (if is_string (get trade "side") "buy" then "sell" else "buy").
Proof.
  reflexivity.
Qed.

(** C5.  [parseTrade] reports the opposite of the payload's side: a payload
    side ["buy"] gives ["sell"], a payload side ["sell"] gives ["buy"]. *)
Theorem parseTrade_inverts_side :
  forall (rt : Runtime) (this : Exchange) (trade : obj) (market : option obj),
    (get trade "side" = VStr "buy" ->
     get (parseTrade rt this trade market) "side" = VStr "sell")
    /\ (get trade "side" = VStr "sell" ->
        get (parseTrade rt this trade market) "side" = VStr "buy").
Proof.
  intros rt this trade market.
  rewrite parseTrade_side.
  split; intro H; rewrite H; reflexivity.
Qed.

Lemma parseTrade_inverts_side_witness :
  get (parseTrade Sample.runtime Sample.exchange
         [ ("side", VStr "buy"); ("size", VStr "1") ] None) "side"
  = VStr "sell"
  /\ get (parseTrade Sample.runtime Sample.exchange
            [ ("side", VStr "sell"); ("size", VStr "1") ] None) "side"
     = VStr "buy".
Proof.
  split.
  - apply (proj1 (parseTrade_inverts_side Sample.runtime Sample.exchange
                    [ ("side", VStr "buy"); ("size", VStr "1") ] None)).
    reflexivity.
  - apply (proj2 (parseTrade_inverts_side Sample.runtime Sample.exchange
                    [ ("side", VStr "sell"); ("size", VStr "1") ] None)).
    reflexivity.
Defined.

(** ** Orders *)

Lemma parseOrder_amount (rt : Runtime) (this : Exchange) (order : obj)
    (market : option obj) :
  get (parseOrder rt this order market) "amount"
  = first_defined [ safeFloat this order "size";
                    safeFloat this order "funds";
                    safeFloat this order "specified_funds" ].
Proof.
  change (get (parseOrder rt this order market) "amount")
    with (let amount := safeFloat this order "size" in
          let amount :=
            if is_undefined amount then safeFloat this order "funds"
            else amount in
          if is_undefined amount then safeFloat this order "specified_funds"
          else amount).
  simpl.
  destruct (is_undefined (safeFloat this order "size")) eqn:S1.
  - destruct (is_undefined (safeFloat this order "funds")) eqn:S2.
    + destruct (safeFloat this order "specified_funds"); reflexivity.
    + reflexivity.
  - rewrite S1. reflexivity.
Qed.

(** C6.  The amount of a normalized order is the first defined one of the
    safe reads of [size], [funds] and [specified_funds], in this order; so
    when [size] and [funds] are both defined it is the value of [size]. *)
Theorem parseOrder_amount_precedence :
  forall (rt : Runtime) (this : Exchange) (order : obj) (market : option obj),
    get (parseOrder rt this order market) "amount"
    = first_defined [ safeFloat this order "size";
                      safeFloat this order "funds";
                      safeFloat this order "specified_funds" ]
    /\ (safeFloat this order "size" <> VUndef ->
        safeFloat this order "funds" <> VUndef ->
        get (parseOrder rt this order market) "amount"
        = safeFloat this order "size").
Proof.
  intros rt this order market.
  rewrite parseOrder_amount.
  split; [reflexivity |].
  intros Hsize _. simpl.
  apply is_undefined_false in Hsize. now rewrite Hsize.
Qed.

Lemma parseOrder_amount_precedence_witness :
  get (parseOrder Sample.runtime Sample.exchange
         [ ("size", VStr "5"); ("funds", VStr "9") ] None) "amount"
  = VNum 5.
Proof.
  apply (proj2 (parseOrder_amount_precedence Sample.runtime Sample.exchange
                  [ ("size", VStr "5"); ("funds", VStr "9") ] None)).
  - vm_compute. discriminate.
  - vm_compute. discriminate.
Defined.

(** ** Markets *)

(** The taker fee of the market pushed for one product. *)
Lemma fetchMarkets_entry_taker (this : Exchange) (taker : value)
    (b1 b2 : obj) :
  has b2 "taker" = false ->
  get (extend (fees_trading this) (b1 ++ ("taker", taker) :: b2)%list) "taker"
  = taker.
Proof.
  apply get_extend_last.
Qed.

(** C7.  [fetchMarkets] awaits the product list and returns one market per
    product, in order; the market of a product whose [base_currency] is
    ["ETH"] or ["LTC"] has the taker fee 0.003 whatever
    [this.fees['trading']] holds, and the market of any other product has
    the taker fee of [this.fees['trading']]. *)
Theorem fetchMarkets_taker_fee :
  forall (rt : Runtime) (this : Exchange) (h : forall T, event T -> T),
  exists result : list value,
    run h (fetchMarkets rt this) = ([Awaited PublicGetProducts], Return result)
    /\ List.length result = List.length (h _ PublicGetProducts)
    /\ forall (p : nat) (product : obj),
         nth_error (h _ PublicGetProducts) p = Some product ->
         exists market : obj,
           nth_error result p = Some (VObj market)
           /\ (get product "base_currency" = VStr "ETH"
               \/ get product "base_currency" = VStr "LTC" ->
               get market "taker" = VNum 0.003)
           /\ (get product "base_currency" <> VStr "ETH" ->
               get product "base_currency" <> VStr "LTC" ->
               get market "taker" = get (fees_trading this) "taker").
Proof.
  intros rt this h.
  eexists. split; [reflexivity |].
  split; [apply length_map |].
  intros p product Hp.
  eexists. split.
  - rewrite (map_nth_error _ _ _ Hp). cbv beta zeta. reflexivity.
  - cbv zeta.
    match goal with
    | |- context [extend _ (?e1 :: ?e2 :: ?e3 :: ?e4 :: ?e5 :: ?e6
                              :: ("taker", ?t) :: ?rest)] =>
        change (extend (fees_trading this)
                  (e1 :: e2 :: e3 :: e4 :: e5 :: e6 :: ("taker", t) :: rest))
          with (extend (fees_trading this)
                  ([e1; e2; e3; e4; e5; e6] ++ ("taker", t) :: rest)%list)
    end.
    rewrite fetchMarkets_entry_taker by reflexivity.
    split.
    + intros [H | H]; rewrite H; reflexivity.
    + intros H1 H2.
      apply is_string_false in H1, H2.
      now rewrite H1, H2.
Qed.

Lemma fetchMarkets_taker_fee_witness :
  exists result : list value,
    run Sample.answers (fetchMarkets Sample.runtime Sample.exchange)
    = ([Awaited PublicGetProducts], Return result)
    /\ (exists market : obj,
          nth_error result 1 = Some (VObj market)
          /\ get market "taker" = VNum 0.003)
    /\ (exists market : obj,
          nth_error result 0 = Some (VObj market)
          /\ get market "taker" = VNum (0.25 / 100)).
Proof.
  destruct (fetchMarkets_taker_fee Sample.runtime Sample.exchange
              Sample.answers) as [result [Hrun [_ Hall]]].
  exists result. split; [exact Hrun |]. split.
  - destruct (Hall 1%nat _ eq_refl) as [market [Hnth [Heth _]]].
    exists market. split; [exact Hnth |].
    apply Heth. left. reflexivity.
  - destruct (Hall 0%nat _ eq_refl) as [market [Hnth [_ Hother]]].
    exists market. split; [exact Hnth |].
    rewrite Hother.
    + reflexivity.
    + vm_compute. discriminate.
    + vm_compute. discriminate.
Defined.

(** ** Deposits and withdrawals *)

(** C8.  With neither [payment_method_id] nor [coinbase_account_id] among
    the extra parameters, [deposit] awaits [loadMarkets] and throws
    [NotSupported] without having called any endpoint, whereas [withdraw]
    sets [crypto_address] of its request to the address it was given and
    calls [privatePostWithdrawalsCrypto] with that request extended by the
    extra parameters. *)
Theorem deposit_withdraw_without_source :
  forall (this : Exchange) (currency amount address tag : value)
         (params : obj) (h : forall T, event T -> T),
    has params "payment_method_id" = false ->
    has params "coinbase_account_id" = false ->
    (run h (deposit this currency amount address params)
     = ([Awaited LoadMarkets],
        Throw (NotSupported
          (id this ++
           " deposit() requires one of `coinbase_account_id` or `payment_method_id` extra params")))
     /\ filter is_request
          (fst (run h (deposit this currency amount address params))) = [])
    /\ (let request :=
          [ ("currency", currency); ("amount", amount);
            ("crypto_address", address) ] in
        fst (run h (withdraw this currency amount address tag params))
        = [ Awaited LoadMarkets;
            Awaited (Invoke "privatePostWithdrawalsCrypto"
                       (extend request params)) ]
        /\ get request "crypto_address" = address
        /\ (has params "crypto_address" = false ->
            get (extend request params) "crypto_address" = address)).
Proof.
  intros this currency amount address tag params h Hpm Hcb.
  assert (Hdeposit :
            run h (deposit this currency amount address params)
            = ([Awaited LoadMarkets],
               Throw (NotSupported
                 (id this ++
                  " deposit() requires one of `coinbase_account_id` or `payment_method_id` extra params")))).
  { unfold deposit. simpl. rewrite Hpm, Hcb. reflexivity. }
  split; [split |].
  - exact Hdeposit.
  - rewrite Hdeposit. reflexivity.
  - cbv zeta. split; [| split].
    + unfold withdraw. simpl. rewrite Hpm, Hcb. simpl.
      destruct (truthy _); reflexivity.
    + reflexivity.
    + intro Hca. rewrite get_extend_absent by assumption. reflexivity.
Qed.

Lemma deposit_withdraw_without_source_witness :
  run Sample.answers
    (deposit Sample.exchange (VStr "BTC") (VNum 1) (VStr "address") [])
  = ([Awaited LoadMarkets],
     Throw (NotSupported
       "gdax deposit() requires one of `coinbase_account_id` or `payment_method_id` extra params"))
  /\ fst (run Sample.answers
            (withdraw Sample.exchange (VStr "BTC") (VNum 1) (VStr "address")
               VUndef []))
     = [ Awaited LoadMarkets;
         Awaited (Invoke "privatePostWithdrawalsCrypto"
                    [ ("currency", VStr "BTC"); ("amount", VNum 1);
                      ("crypto_address", VStr "address") ]) ].
Proof.
  destruct (deposit_withdraw_without_source Sample.exchange
              (VStr "BTC") (VNum 1) (VStr "address") VUndef []
              Sample.answers eq_refl eq_refl)
    as [[Hdeposit _] [Hwithdraw _]].
  split; [exact Hdeposit | exact Hwithdraw].
Defined.

(** ** Candle requests *)

(** C10.  When [since] is given and [limit] is not, [fetchOHLCV] takes 350
    for [limit] and sets [end] of its request to [YmdHMS] of the sum of
    [limit * granularity * 1000] and [since]; when [since] is not given its
    request holds [id] and [granularity] only.  In both cases the request
    is sent extended by the extra parameters. *)
Theorem fetchOHLCV_request_window :
  forall (rt : Runtime) (this : Exchange) (symbol : value)
         (timeframe : string) (since limit : value) (params resolved : obj)
         (h : forall T, event T -> T),
    market this symbol = Return resolved ->
    let granularity := get (timeframes this) timeframe in
    (since <> VUndef -> limit = VUndef ->
     let request :=
       [ ("id", get resolved "id");
         ("granularity", granularity);
         ("start", YmdHMS this since);
         ("end",
          YmdHMS this
            (sum this (mul rt (mul rt (VNum 350) granularity) (VNum 1000))
               since)) ] in
     let call := Invoke "publicGetProductsIdCandles" (extend request params) in
     run h (fetchOHLCV rt this symbol timeframe since limit params)
     = ([Awaited LoadMarkets; Awaited call],
        Return (parseOHLCVs this (h _ call) resolved timeframe since
                  (VNum 350))))
    /\ (since = VUndef ->
        let request :=
          [ ("id", get resolved "id"); ("granularity", granularity) ] in
        let call :=
          Invoke "publicGetProductsIdCandles" (extend request params) in
        run h (fetchOHLCV rt this symbol timeframe since limit params)
        = ([Awaited LoadMarkets; Awaited call],
           Return (parseOHLCVs this (h _ call) resolved timeframe since limit))
        /\ has request "start" = false
        /\ has request "end" = false).
Proof.
  intros rt this symbol timeframe since limit params resolved h Hmarket.
  cbv zeta. split.
  - intros Hsince Hlimit. subst limit.
    apply is_undefined_false in Hsince.
    unfold fetchOHLCV, fetchOHLCV_request. simpl.
    rewrite Hmarket, Hsince. reflexivity.
  - intro Hsince. subst since.
    unfold fetchOHLCV, fetchOHLCV_request. simpl.
    rewrite Hmarket. repeat split.
Qed.

Lemma fetchOHLCV_request_window_witness :
  fst (run Sample.answers
         (fetchOHLCV Sample.runtime Sample.exchange (VStr "BTC/USD") "1m"
            (VNum 1514764800000) VUndef []))
  = [ Awaited LoadMarkets;
      Awaited (Invoke "publicGetProductsIdCandles"
                 [ ("id", VStr "BTC-USD");
                   ("granularity", VNum 60);
                   ("start", VStr "YmdHMS(1514764800000)");
                   ("end", VStr "YmdHMS(1514785800000)") ]) ].
Proof.
  assert (Hsince : VNum 1514764800000 <> VUndef) by discriminate.
  rewrite (proj1 (fetchOHLCV_request_window Sample.runtime Sample.exchange
                    (VStr "BTC/USD") "1m" (VNum 1514764800000) VUndef []
                    Sample.btc_usd Sample.answers eq_refl)
             Hsince eq_refl).
  vm_compute. reflexivity.
Defined.

(** ** Signed requests *)

(** What a private call of [sign] returns, when the credentials are there:
    the payload is the serialized query of a request that is not a GET and
    has query parameters left, and empty otherwise. *)
Lemma sign_private (rt : Runtime) (this : Exchange) (path method_ : string)
    (params : obj) (headers_ body_ : value) (d : descriptor) :
  sign rt this path "private" method_ params headers_ body_ = Return d ->
  let query := omit this params (extractParams this path) in
  let request := sign_request this path method_ params in
  let serialized :=
    negb (String.eqb method_ "GET") && nonempty query in
  let payload := if serialized then json this (VObj query) else "" in
  let nonce_ := number_to_string rt (nonce this) in
  d = {| url := urls_api this ++ request;
         method := method_;
         body := if serialized then VStr payload else body_;
         headers :=
           VObj [ ("CB-ACCESS-KEY", apiKey this);
                  ("CB-ACCESS-SIGN",
                   VStr (decode this
                           (hmac this
                              (encode this
                                 (nonce_ ++ method_ ++ request ++ payload))
                              (base64ToBinary this (secret this))
                              "sha256" "base64")));
                  ("CB-ACCESS-TIMESTAMP", VStr nonce_);
                  ("CB-ACCESS-PASSPHRASE", password this);
                  ("Content-Type", VStr "application/json") ] |}.
Proof.
  unfold sign. simpl.
  destruct (checkRequiredCredentials this) as [[] | e]; simpl;
    [| discriminate].
  destruct (String.eqb method_ "GET"); simpl.
  - intro H. injection H as <-. reflexivity.
  - destruct (nonempty (omit this params (extractParams this path))); simpl;
      intro H; injection H as <-; reflexivity.
Qed.

(** C3 (as amended).  In every private request that [sign] builds, the
    signature is the HMAC-SHA256 of [nonce + method + requestPath +
    payload].  The request path is the slash and the path with its
    parameters filled in, followed for a GET with query parameters left
    by the question mark and their encoding.  The payload is the JSON
    serialization of the query parameters left for a request that is not
    a GET and has some - the very string that becomes the descriptor's
    body - and the empty string in every other case: for every GET
    request and for every request without query parameters left.  In
    those cases the descriptor's body is the body that the caller handed
    in, and it is not part of what is signed; when the caller hands in
    none, the payload is the descriptor's body, or the empty string when
    the descriptor has none. *)
Theorem sign_signs_concatenation :
  forall (rt : Runtime) (this : Exchange) (path method_ : string)
         (params : obj) (headers_ body_ : value) (d : descriptor),
    sign rt this path "private" method_ params headers_ body_ = Return d ->
    let query := omit this params (extractParams this path) in
    let requestPath :=
      if String.eqb method_ "GET" && nonempty query then
        ("/" ++ implodeParams this path params)
        ++ "?" ++ urlencode this query
      else "/" ++ implodeParams this path params in
    let serialized := negb (String.eqb method_ "GET") && nonempty query in
    let payload := if serialized then json this (VObj query) else "" in
    let nonce_ := number_to_string rt (nonce this) in
    member (headers d) "CB-ACCESS-SIGN"
    = VStr (decode this
              (hmac this
                 (encode this (nonce_ ++ method_ ++ requestPath ++ payload))
                 (base64ToBinary this (secret this)) "sha256" "base64"))
    /\ member (headers d) "CB-ACCESS-TIMESTAMP" = VStr nonce_
    /\ url d = urls_api this ++ requestPath
    /\ body d = (if serialized then VStr payload else body_)
    /\ (method_ = "GET" -> payload = "")
    /\ (body d = VUndef -> payload = "")
    /\ (query = [] -> payload = "")
    /\ (method_ <> "GET" -> query <> [] ->
        payload = json this (VObj query) /\ body d = VStr payload)
    /\ (body_ = VUndef ->
        payload = match body d with VStr text => text | _ => "" end).
Proof.
  intros rt this path method_ params headers_ body_ d H.
  apply sign_private in H. cbv zeta in *.
  unfold sign_request in H.
  set (query := omit this params (extractParams this path)) in *.
  subst d. simpl.
  destruct (String.eqb method_ "GET") eqn:Hget; simpl.
  - apply String.eqb_eq in Hget.
    destruct (nonempty query);
      (repeat split; try reflexivity; try congruence;
       intro Hbody; rewrite Hbody; reflexivity).
  - apply String.eqb_neq in Hget.
    destruct query as [| kv query']; simpl.
    + repeat split; try reflexivity; try congruence.
      intro Hbody. rewrite Hbody. reflexivity.
    + repeat split; try reflexivity; try discriminate.
      intro Habs. contradiction.
Qed.

Lemma sign_signs_concatenation_witness :
  exists d : descriptor,
    sign Sample.runtime Sample.exchange "orders" "private" "POST"
      [ ("size", VStr "1") ] VUndef VUndef = Return d
    /\ member (headers d) "CB-ACCESS-SIGN"
       = VStr (Sample.call "hmac"
                 [ "1514764800" ++ "POST" ++ "/orders"
                   ++ Sample.to_json (VObj [ ("size", VStr "1") ]);
                   "base64ToBinary(c2VjcmV0)"; "sha256"; "base64" ])
    /\ body d = VStr (Sample.to_json (VObj [ ("size", VStr "1") ])).
Proof.
  destruct (sign Sample.runtime Sample.exchange "orders" "private" "POST"
              [ ("size", VStr "1") ] VUndef VUndef) as [d | e] eqn:Hd;
    [| vm_compute in Hd; discriminate Hd].
  exists d. split; [reflexivity |].
  destruct (sign_signs_concatenation Sample.runtime Sample.exchange
              "orders" "POST" [ ("size", VStr "1") ] VUndef VUndef d Hd)
    as [Hsign [_ [_ [Hbody _]]]].
  split.
  - rewrite Hsign. vm_compute. reflexivity.
  - rewrite Hbody. vm_compute. reflexivity.
Defined.

(** C3, the claim as written fails when the caller hands a body to
    [sign].  A private POST of [orders] without parameters and with the
    body [{"size":"1"}] is returned with that body and is signed as
    [nonce + method + path] alone, which is not the concatenation with
    the body; and a private GET of [accounts] with that body is returned
    with it, so that a GET request does send a body, and is signed
    without it. *)
Lemma sign_signs_concatenation_counterexample :
  let sent := Sample.to_json (VObj [ ("size", VStr "1") ]) in
  let signature (what : string) :=
    VStr (Sample.call "hmac"
            [ what; "base64ToBinary(c2VjcmV0)"; "sha256"; "base64" ]) in
  (exists d : descriptor,
      sign Sample.runtime Sample.exchange "orders" "private" "POST" []
        VUndef (VStr sent) = Return d
      /\ body d = VStr sent
      /\ member (headers d) "CB-ACCESS-SIGN"
         = signature ("1514764800" ++ "POST" ++ "/orders")
      /\ member (headers d) "CB-ACCESS-SIGN"
         <> signature ("1514764800" ++ "POST" ++ "/orders" ++ sent))
  /\ (exists d : descriptor,
        sign Sample.runtime Sample.exchange "accounts" "private" "GET" []
          VUndef (VStr sent) = Return d
        /\ body d = VStr sent
        /\ member (headers d) "CB-ACCESS-SIGN"
           = signature ("1514764800" ++ "GET" ++ "/accounts")
        /\ member (headers d) "CB-ACCESS-SIGN"
           <> signature ("1514764800" ++ "GET" ++ "/accounts" ++ sent)).
Proof.
  cbv zeta. split.
  - eexists. split; [vm_compute; reflexivity |].
    split; [vm_compute; reflexivity |].
    split; [vm_compute; reflexivity |].
    vm_compute. discriminate.
  - eexists. split; [vm_compute; reflexivity |].
    split; [vm_compute; reflexivity |].
    split; [vm_compute; reflexivity |].
    vm_compute. discriminate.
Qed.

(** C9 (as amended).  Every private request that [sign] builds carries the
    header [Content-Type: application/json], whether it has a body or not. *)
Theorem sign_private_content_type :
  forall (rt : Runtime) (this : Exchange) (path method_ : string)
         (params : obj) (headers_ body_ : value) (d : descriptor),
    sign rt this path "private" method_ params headers_ body_ = Return d ->
    member (headers d) "Content-Type" = VStr "application/json".
Proof.
  intros rt this path method_ params headers_ body_ d H.
  apply sign_private in H. subst d. reflexivity.
Qed.

Lemma sign_private_content_type_witness :
  exists d : descriptor,
    sign Sample.runtime Sample.exchange "orders" "private" "POST"
      [ ("size", VStr "1") ] VUndef VUndef = Return d
    /\ member (headers d) "Content-Type" = VStr "application/json".
Proof.
  eexists. split; [vm_compute; reflexivity |].
  apply (sign_private_content_type Sample.runtime Sample.exchange
           "orders" "POST" [ ("size", VStr "1") ] VUndef VUndef _ eq_refl).
Defined.

(** C9, the claim as written fails: the private GET request for
    [accounts] has no body and yet carries [Content-Type]. *)
Lemma sign_content_type_counterexample :
  exists d : descriptor,
    sign Sample.runtime Sample.exchange "accounts" "private" "GET"
      [] VUndef VUndef = Return d
    /\ body d = VUndef
    /\ member (headers d) "Content-Type" = VStr "application/json".
Proof.
  eexists. split; [vm_compute; reflexivity |].
  split; reflexivity.
Qed.

(** ** Error classification *)

Lemma substring_prefix (m : nat) :
  forall s t : string,
    String.substring 0 m s = t -> String.length t = m ->
    exists after : string, s = t ++ after.
Proof.
  induction m as [| m IH]; intros s t H L.
  - destruct t; [| discriminate]. exists s. reflexivity.
  - destruct s as [| c s]; simpl in H; subst t; [discriminate |].
    simpl in L. injection L as L.
    destruct (IH s _ eq_refl L) as [after E].
    exists after. simpl. rewrite <- E. reflexivity.
Qed.

Lemma substring_occurs (n : nat) :
  forall (m : nat) (s t : string),
    String.substring n m s = t -> String.length t = m -> occurs_in t s.
Proof.
  induction n as [| n IH]; intros m s t H L.
  - destruct (substring_prefix m s t H L) as [after E].
    exists EmptyString, after. exact E.
  - destruct s as [| c s]; simpl in H.
    + subst t. exists EmptyString, EmptyString. reflexivity.
    + destruct (IH m s t H L) as [before [after E]].
      exists (String c before), after. simpl. rewrite <- E. reflexivity.
Qed.

Lemma substring_of_occurrence (before text after : string) :
  String.substring (String.length before) (String.length text)
    (before ++ text ++ after) = text.
Proof.
  induction before as [| c before IH]; simpl; [| exact IH].
  induction text as [| c text IH]; simpl.
  - destruct after; reflexivity.
  - rewrite IH. reflexivity.
Qed.

(** [message.indexOf (text) >= 0] says that [text] occurs in [message]. *)
Lemma indexOf_occurs (message text : string) :
  text <> EmptyString ->
  (0 <=? indexOf message text)%Z = true <-> occurs_in text message.
Proof.
  intro Hne. unfold indexOf.
  destruct (String.index 0 text message) as [n |] eqn:E.
  - split; intros _; [| apply Z.leb_le; lia].
    apply (substring_occurs n (String.length text)); [| reflexivity].
    exact (index_correct1 _ _ _ _ E).
  - split; [discriminate |].
    intros [before [after Hocc]]. exfalso.
    apply (index_correct3 0 (String.length before) text message E Hne);
      [lia |].
    rewrite Hocc. apply substring_of_occurrence.
Qed.

(** What [handleErrors] does with a status 400 whose body starts with a
    brace and parses to an object with a string for [message]. *)
Lemma handleErrors_400_message (rt : Runtime) (this : Exchange)
    (reason url_ method_ : string) (headers_ : value) (body_ : string)
    (response : obj) (message : string) :
  String.get 0 body_ = Some "{"%char ->
  JSON_parse rt body_ = Some (VObj response) ->
  get response "message" = VStr message ->
  handleErrors rt this 400 reason url_ method_ headers_ body_
  = let error := id this ++ " " ++ message in
    if (0 <=? indexOf message "price too small")%Z then
      Throw (InvalidOrder error)
    else if (0 <=? indexOf message "price too precise")%Z then
      Throw (InvalidOrder error)
    else if String.eqb message "Insufficient funds" then
      Throw (InsufficientFunds error)
    else if String.eqb message "Invalid API Key" then
      Throw (AuthenticationError error)
    else Throw (ExchangeError error).
Proof.
  intros H0 Hparse Hmessage.
  unfold handleErrors.
  change (400 =? 400)%Z with true. cbv iota.
  rewrite H0, Hparse.
  unfold property, member, bind. rewrite Hmessage.
  unfold indexOf_found, is_string, to_string.
  cbv zeta.
  destruct (0 <=? indexOf message "price too small")%Z; [reflexivity |].
  destruct (0 <=? indexOf message "price too precise")%Z; reflexivity.
Qed.

(** C4 (as amended).  On a status 400 whose body starts with a brace and
    parses to an object with a string for [message], [handleErrors] throws
    [InvalidOrder] when the message contains "price too small" or "price
    too precise", [InsufficientFunds] when it is "Insufficient funds",
    [AuthenticationError] when it is "Invalid API Key", and [ExchangeError]
    with the message otherwise; on a status 400 whose body does not start
    with a brace it throws [ExchangeError] with the body. *)
Theorem handleErrors_400_dispatch :
  forall (rt : Runtime) (this : Exchange) (reason url_ method_ : string)
         (headers_ : value) (body_ : string),
    let thrown :=
      handleErrors rt this 400 reason url_ method_ headers_ body_ in
    (forall (response : obj) (message : string),
        String.get 0 body_ = Some "{"%char ->
        JSON_parse rt body_ = Some (VObj response) ->
        get response "message" = VStr message ->
        let error := id this ++ " " ++ message in
        (occurs_in "price too small" message ->
         thrown = Throw (InvalidOrder error))
        /\ (occurs_in "price too precise" message ->
            thrown = Throw (InvalidOrder error))
        /\ (message = "Insufficient funds" ->
            thrown = Throw (InsufficientFunds error))
        /\ (message = "Invalid API Key" ->
            thrown = Throw (AuthenticationError error))
        /\ (~ occurs_in "price too small" message ->
            ~ occurs_in "price too precise" message ->
            message <> "Insufficient funds" ->
            message <> "Invalid API Key" ->
            thrown = Throw (ExchangeError error)))
    /\ (String.get 0 body_ <> Some "{"%char ->
        thrown = Throw (ExchangeError (id this ++ " " ++ body_))).
Proof.
  intros rt this reason url_ method_ headers_ body_ thrown.
  split.
  - intros response message H0 Hparse Hmessage error.
    subst thrown.
    rewrite (handleErrors_400_message _ _ _ _ _ _ _ _ _ H0 Hparse Hmessage).
    cbv zeta. fold error.
    assert (Hsmall := indexOf_occurs message "price too small").
    assert (Hprecise := indexOf_occurs message "price too precise").
    split; [| split; [| split; [| split]]].
    + intro Hs. apply Hsmall in Hs; [| discriminate].
      rewrite Hs. reflexivity.
    + intro Hp. apply Hprecise in Hp; [| discriminate].
      rewrite Hp.
      destruct (0 <=? indexOf message "price too small")%Z; reflexivity.
    + intro Hm. subst error. rewrite Hm. reflexivity.
    + intro Hm. subst error. rewrite Hm. reflexivity.
    + intros Hs Hp Hfunds Hkey.
      destruct (0 <=? indexOf message "price too small")%Z.
      { exfalso. apply Hs, Hsmall; [discriminate | reflexivity]. }
      destruct (0 <=? indexOf message "price too precise")%Z.
      { exfalso. apply Hp, Hprecise; [discriminate | reflexivity]. }
      apply String.eqb_neq in Hfunds, Hkey.
      rewrite Hfunds, Hkey. reflexivity.
  - intro H0. subst thrown. unfold handleErrors.
    change (400 =? 400)%Z with true. cbv iota.
    destruct (String.get 0 body_) as [c |]; [| reflexivity].
    destruct c as [[] [] [] [] [] [] [] []]; try reflexivity.
    contradiction H0. reflexivity.
Qed.

(** The four examples of the specification: the bodies
    [{"message":"Insufficient funds"}], [{"message":"price too small"}] and
    [{"message":"weird"}], and a body that is no JSON text. *)
Lemma handleErrors_400_dispatch_witness :
  let run_on body_ :=
    handleErrors Sample.runtime Sample.exchange 400 "Bad Request"
      "https://api.gdax.com/orders" "POST" VUndef body_ in
  run_on (Sample.message_body "Insufficient funds")
  = Throw (InsufficientFunds "gdax Insufficient funds")
  /\ run_on (Sample.message_body "price too small")
     = Throw (InvalidOrder "gdax price too small")
  /\ run_on (Sample.message_body "weird")
     = Throw (ExchangeError "gdax weird")
  /\ run_on "Bad Request" = Throw (ExchangeError "gdax Bad Request").
Proof.
  cbv zeta.
  split; [| split; [| split]].
  - destruct (handleErrors_400_dispatch Sample.runtime Sample.exchange
                "Bad Request" "https://api.gdax.com/orders" "POST" VUndef
                (Sample.message_body "Insufficient funds")) as [Hjson _].
    destruct (Hjson [ ("message", VStr "Insufficient funds") ]
                "Insufficient funds" eq_refl eq_refl eq_refl)
      as [_ [_ [Hfunds _]]].
    exact (Hfunds eq_refl).
  - destruct (handleErrors_400_dispatch Sample.runtime Sample.exchange
                "Bad Request" "https://api.gdax.com/orders" "POST" VUndef
                (Sample.message_body "price too small")) as [Hjson _].
    destruct (Hjson [ ("message", VStr "price too small") ]
                "price too small" eq_refl eq_refl eq_refl)
      as [Hsmall _].
    apply Hsmall. exists EmptyString, EmptyString. reflexivity.
  - destruct (handleErrors_400_dispatch Sample.runtime Sample.exchange
                "Bad Request" "https://api.gdax.com/orders" "POST" VUndef
                (Sample.message_body "weird")) as [Hjson _].
    destruct (Hjson [ ("message", VStr "weird") ]
                "weird" eq_refl eq_refl eq_refl)
      as [_ [_ [_ [_ Hother]]]].
    apply Hother.
    + intro H. apply indexOf_occurs in H; [| discriminate].
      vm_compute in H. discriminate H.
    + intro H. apply indexOf_occurs in H; [| discriminate].
      vm_compute in H. discriminate H.
    + discriminate.
    + discriminate.
  - destruct (handleErrors_400_dispatch Sample.runtime Sample.exchange
                "Bad Request" "https://api.gdax.com/orders" "POST" VUndef
                "Bad Request") as [_ Hraw].
    apply Hraw. vm_compute. discriminate.
Defined.

(** C4, the claim as written fails on three bodies of a status 400.
    ["{oops"] is no JSON text, and [JSON.parse] raises [SyntaxError] instead
    of an [ExchangeError] with the body.  [{"message":"Insufficient funds"}]
    after a space is a JSON object, and is reported as an [ExchangeError]
    with the body instead of [InsufficientFunds].  [{}] is a JSON object,
    and reading [indexOf] of its missing message raises [TypeError]. *)
Lemma handleErrors_400_counterexample :
  let run_on body_ :=
    handleErrors Sample.runtime Sample.exchange 400 "Bad Request"
      "https://api.gdax.com/orders" "POST" VUndef body_ in
  (Sample.parse_json "{oops" = None
   /\ run_on "{oops" = Throw SyntaxError)
  /\ (Sample.parse_json (" " ++ Sample.message_body "Insufficient funds")
      = Some (VObj [ ("message", VStr "Insufficient funds") ])
      /\ run_on (" " ++ Sample.message_body "Insufficient funds")
         = Throw (ExchangeError
                    ("gdax " ++ " "
                     ++ Sample.message_body "Insufficient funds")))
  /\ (Sample.parse_json "{}" = Some (VObj [])
      /\ run_on "{}" = Throw TypeError).
Proof.
  cbv zeta. repeat split.
Qed.

(** * More properties of the code *)

(** ** Objects, continued *)

Lemma has_extend (a b : obj) (k : string) :
  has (extend a b) k = has a k || has b k.
Proof.
  unfold extend. revert a.
  induction b as [| [k' v'] b IH]; intro a; simpl.
  - now rewrite orb_false_r.
  - rewrite IH.
    destruct (String.eqb k' k) eqn:E.
    + apply String.eqb_eq in E; subst k'.
      rewrite has_set_same. now rewrite orb_true_r.
    + rewrite has_set_other by now apply String.eqb_neq.
      reflexivity.
Qed.

Lemma has_false_not_in (o : obj) (k : string) :
  has o k = false -> ~ In k (map fst o).
Proof.
  induction o as [| [k' v'] o IH]; simpl; intro H; [tauto |].
  destruct (String.eqb k' k) eqn:E; [discriminate |].
  apply String.eqb_neq in E. intros [H1 | H1]; [contradiction |].
  now apply IH.
Qed.

Lemma not_in_has_false (o : obj) (k : string) :
  ~ In k (map fst o) -> has o k = false.
Proof.
  induction o as [| [k' v'] o IH]; simpl; intro H; [reflexivity |].
  destruct (String.eqb k' k) eqn:E.
  - apply String.eqb_eq in E. tauto.
  - apply IH. tauto.
Qed.

(** A key of the second object, whose keys are distinct, is read from it. *)
Lemma get_extend_present (a b : obj) (k : string) :
  NoDup (map fst b) -> has b k = true -> get (extend a b) k = get b k.
Proof.
  unfold extend. revert a.
  induction b as [| [k' v'] b IH]; intros a Hnd H; simpl in *;
    [discriminate |].
  inversion Hnd as [| ? ? Hnotin Hnd']; subst.
  destruct (String.eqb k' k) eqn:E.
  - apply String.eqb_eq in E; subst k'.
    change (get (extend (set a k v') b) k = v').
    rewrite get_extend_absent by now apply not_in_has_false.
    apply get_set_same.
  - now apply IH.
Qed.

(** ** Error classification, continued *)

Lemma indexOf_found_throws_or_bool (message : value) (text : string) :
  indexOf_found message text = Throw TypeError
  \/ exists b : bool, indexOf_found message text = Return b.
Proof.
  destruct message; simpl; eauto.
Qed.

Lemma handleErrors_400_throws (rt : Runtime) (this : Exchange)
    (reason url_ method_ : string) (headers_ : value) (body_ : string) :
  exists e : exn,
    handleErrors rt this 400 reason url_ method_ headers_ body_ = Throw e.
Proof.
  unfold handleErrors.
  change (400 =? 400)%Z with true. cbv iota.
  destruct (String.get 0 body_) as [c |]; [| eexists; reflexivity].
  destruct c as [[] [] [] [] [] [] [] []]; try (eexists; reflexivity).
  destruct (JSON_parse rt body_) as [response |]; [| eexists; reflexivity].
  destruct (property response "message") as [message | e]; simpl;
    [| eexists; reflexivity].
  destruct (indexOf_found_throws_or_bool message "price too small")
    as [-> | [[] ->]]; simpl; try (eexists; reflexivity).
  destruct (indexOf_found_throws_or_bool message "price too precise")
    as [-> | [[] ->]]; simpl; try (eexists; reflexivity).
  destruct (is_string message "Insufficient funds");
    [eexists; reflexivity |].
  destruct (is_string message "Invalid API Key"); eexists; reflexivity.
Qed.

(** X1.  [handleErrors] returns normally exactly when the status is not
    400: every response with status 400 makes it throw, whatever the body,
    and no other status does. *)
Theorem handleErrors_returns_iff :
  forall (rt : Runtime) (this : Exchange) (code : Z)
         (reason url_ method_ : string) (headers_ : value) (body_ : string),
    handleErrors rt this code reason url_ method_ headers_ body_ = Return tt
    <-> code <> 400%Z.
Proof.
  intros rt this code reason url_ method_ headers_ body_.
  split.
  - intros H Hcode. subst code.
    destruct (handleErrors_400_throws rt this reason url_ method_ headers_
                body_) as [e He].
    rewrite He in H. discriminate H.
  - intro Hcode. unfold handleErrors.
    apply Z.eqb_neq in Hcode. rewrite Hcode. reflexivity.
Qed.

Lemma existsb_is_string (l : list value) (text : string) :
  existsb (fun x => is_string x text) l = true <-> In (VStr text) l.
Proof.
  rewrite existsb_exists. split.
  - intros [x [Hin Hx]]. apply is_string_true in Hx. now subst x.
  - intro Hin. exists (VStr text). split; [exact Hin |].
    now apply is_string_true.
Qed.

(** X2.  What a status 400 whose body starts with a brace ends with, by
    the parsed body.  A body that does not parse: [SyntaxError].  A parsed
    body that is [undefined] or [null], or whose [message] is neither a
    string nor an array: [TypeError], and only then.  A message that is a
    string: one of the four errors of the exchange, with the id of the
    exchange, a space and the message for its text.  A message that is an
    array: [InvalidOrder] when one of its elements is the string "price
    too small" or "price too precise", and [ExchangeError] otherwise, with
    the id, a space and the elements joined by commas. *)
Theorem handleErrors_400_brace_errors :
  forall (rt : Runtime) (this : Exchange) (reason url_ method_ : string)
         (headers_ : value) (body_ : string),
    String.get 0 body_ = Some "{"%char ->
    let thrown :=
      handleErrors rt this 400 reason url_ method_ headers_ body_ in
    (JSON_parse rt body_ = None -> thrown = Throw SyntaxError)
    /\ (forall response : value,
          JSON_parse rt body_ = Some response ->
          (response = VUndef \/ response = VNull -> thrown = Throw TypeError)
          /\ (forall message : value,
                property response "message" = Return message ->
                let error := id this ++ " " ++ to_string rt message in
                ((forall text, message <> VStr text) ->
                 (forall elements, message <> VArr elements) ->
                 thrown = Throw TypeError)
                /\ (forall text : string,
                      message = VStr text ->
                      error = id this ++ " " ++ text
                      /\ (thrown = Throw (InvalidOrder error)
                          \/ thrown = Throw (InsufficientFunds error)
                          \/ thrown = Throw (AuthenticationError error)
                          \/ thrown = Throw (ExchangeError error)))
                /\ (forall elements : list value,
                      message = VArr elements ->
                      (In (VStr "price too small") elements
                       \/ In (VStr "price too precise") elements ->
                       thrown = Throw (InvalidOrder error))
                      /\ (~ In (VStr "price too small") elements ->
                          ~ In (VStr "price too precise") elements ->
                          thrown = Throw (ExchangeError error))))
          /\ (thrown = Throw TypeError ->
              response = VUndef \/ response = VNull
              \/ exists message : value,
                   property response "message" = Return message
                   /\ (forall text, message <> VStr text)
                   /\ (forall elements, message <> VArr elements))).
Proof.
  intros rt this reason url_ method_ headers_ body_ H0 thrown.
  subst thrown. unfold handleErrors.
  change (400 =? 400)%Z with true. cbv iota. rewrite H0.
  split.
  - intros ->. reflexivity.
  - intros response ->.
    split; [| split].
    + intros [-> | ->]; reflexivity.
    + intros message Hp. rewrite Hp. simpl.
      split; [| split].
      * intros Hs Ha.
        destruct message; try reflexivity;
          [exfalso; eapply Hs | exfalso; eapply Ha]; reflexivity.
      * intros text ->. split; [reflexivity |].
        unfold indexOf_found. simpl.
        destruct (0 <=? indexOf text "price too small")%Z; [tauto |].
        destruct (0 <=? indexOf text "price too precise")%Z; [tauto |].
        destruct (String.eqb text "Insufficient funds"); [tauto |].
        destruct (String.eqb text "Invalid API Key"); tauto.
      * intros elements ->. simpl.
        pose proof (existsb_is_string elements "price too small") as Hsmall.
        pose proof (existsb_is_string elements "price too precise")
          as Hprecise.
        destruct (existsb (fun x => is_string x "price too small") elements).
        { split; [reflexivity |].
          intros Hn _. exfalso. apply Hn, Hsmall. reflexivity. }
        destruct (existsb (fun x => is_string x "price too precise")
                    elements).
        { split; [reflexivity |].
          intros _ Hn. exfalso. apply Hn, Hprecise. reflexivity. }
        split; [| reflexivity].
        intros [H | H]; [apply Hsmall in H | apply Hprecise in H];
          discriminate H.
    + destruct response; simpl; auto;
        match goal with
        | |- context [get ?o "message"] =>
            destruct (get o "message") eqn:Hm
        | _ => idtac
        end; simpl; intro H;
        try (right; right; eexists; split; [reflexivity |];
             split; intros; discriminate).
      * exfalso. revert H.
        destruct (0 <=? indexOf s "price too small")%Z; [discriminate |].
        destruct (0 <=? indexOf s "price too precise")%Z; [discriminate |].
        destruct (String.eqb s "Insufficient funds"); [discriminate |].
        destruct (String.eqb s "Invalid API Key"); discriminate.
      * exfalso. revert H.
        destruct (existsb _ l); [discriminate |].
        destruct (existsb _ l); discriminate.
Qed.

(** The body [{}] has no message: [TypeError]; the body ["{oops"] does not
    parse: [SyntaxError]. *)
Lemma handleErrors_400_brace_errors_witness :
  let run_on body_ :=
    handleErrors Sample.runtime Sample.exchange 400 "Bad Request"
      "https://api.gdax.com/orders" "POST" VUndef body_ in
  run_on "{oops" = Throw SyntaxError
  /\ run_on "{}" = Throw TypeError.
Proof.
  cbv zeta. split.
  - apply (proj1 (handleErrors_400_brace_errors Sample.runtime
                    Sample.exchange "Bad Request"
                    "https://api.gdax.com/orders" "POST" VUndef "{oops"
                    eq_refl)).
    reflexivity.
  - destruct (proj2 (handleErrors_400_brace_errors Sample.runtime
                       Sample.exchange "Bad Request"
                       "https://api.gdax.com/orders" "POST" VUndef "{}"
                       eq_refl) (VObj []) eq_refl) as [_ [Hmessage _]].
    apply (proj1 (Hmessage VUndef eq_refl)); intros; discriminate.
Defined.

(** ** Signed requests, continued *)

(** X3.  [sign] fails exactly when the request is private and the check of
    the credentials fails, and then with the error of that check; a public
    request is built without consulting the credentials. *)
Theorem sign_throws_iff :
  forall (rt : Runtime) (this : Exchange) (path api method_ : string)
         (params : obj) (headers_ body_ : value) (e : exn),
    sign rt this path api method_ params headers_ body_ = Throw e
    <-> api = "private" /\ checkRequiredCredentials this = Throw e.
Proof.
  intros rt this path api method_ params headers_ body_ e.
  unfold sign.
  destruct (String.eqb api "private") eqn:Hapi.
  - apply String.eqb_eq in Hapi.
    destruct (checkRequiredCredentials this) as [[] | e'] eqn:Hc; simpl.
    + destruct (negb (String.eqb method_ "GET"));
        [destruct (nonempty _) |];
        (split; [discriminate | intros [_ H]; discriminate H]).
    + split.
      * intro H. injection H as ->. auto.
      * intros [_ H]. injection H as ->. reflexivity.
  - apply String.eqb_neq in Hapi.
    split; [discriminate | intros [H _]; contradiction].
Qed.

(** X4.  A request that is not private comes back with the headers and the
    body that the caller handed in; when it is not a GET, the parameters
    that the path does not use are in neither the URL nor the body. *)
Theorem sign_public :
  forall (rt : Runtime) (this : Exchange) (path api method_ : string)
         (params : obj) (headers_ body_ : value),
    api <> "private" ->
    exists d : descriptor,
      sign rt this path api method_ params headers_ body_ = Return d
      /\ headers d = headers_
      /\ body d = body_
      /\ method d = method_
      /\ (method_ <> "GET" ->
          url d = urls_api this ++ "/" ++ implodeParams this path params).
Proof.
  intros rt this path api method_ params headers_ body_ Hapi.
  apply String.eqb_neq in Hapi.
  unfold sign. rewrite Hapi.
  eexists. split; [reflexivity |]. simpl.
  repeat split.
  intro Hget. apply String.eqb_neq in Hget.
  unfold sign_request. rewrite Hget. reflexivity.
Qed.

Lemma sign_public_witness :
  exists d : descriptor,
    sign Sample.runtime Sample.exchange "products/{id}/book" "public" "POST"
      [ ("id", VStr "BTC-USD"); ("level", VStr "2") ] VUndef VUndef
    = Return d
    /\ headers d = VUndef
    /\ body d = VUndef
    /\ url d = "https://api.gdax.com/products/BTC-USD/book".
Proof.
  destruct (sign_public Sample.runtime Sample.exchange "products/{id}/book"
              "public" "POST" [ ("id", VStr "BTC-USD"); ("level", VStr "2") ]
              VUndef VUndef) as [d [Hd [Hh [Hb [_ Hu]]]]];
    [discriminate |].
  exists d. split; [exact Hd |]. split; [exact Hh |]. split; [exact Hb |].
  rewrite Hu by discriminate. vm_compute. reflexivity.
Defined.

(** X5.  The URL and the method of the descriptor depend on the path, the
    method and the parameters only: the same for a public and a private
    request, whatever headers and body are handed in.  The parameters left
    after the path go into the URL for a GET, and for no other method. *)
Theorem sign_url :
  forall (rt : Runtime) (this : Exchange) (path api method_ : string)
         (params : obj) (headers_ body_ : value) (d : descriptor),
    sign rt this path api method_ params headers_ body_ = Return d ->
    let query := omit this params (extractParams this path) in
    let prefix := urls_api this ++ "/" ++ implodeParams this path params in
    method d = method_
    /\ (method_ = "GET" -> query <> [] ->
        url d = urls_api this
                ++ ("/" ++ implodeParams this path params)
                ++ "?" ++ urlencode this query)
    /\ (method_ <> "GET" \/ query = [] -> url d = prefix).
Proof.
  intros rt this path api method_ params headers_ body_ d H.
  cbv zeta.
  assert (Hd : url d = urls_api this ++ sign_request this path method_ params
               /\ method d = method_).
  { unfold sign in H.
    destruct (String.eqb api "private").
    - destruct (checkRequiredCredentials this) as [[] | e]; simpl in H;
        [| discriminate H].
      destruct (negb (String.eqb method_ "GET"));
        [destruct (nonempty _) |];
        injection H as <-; split; reflexivity.
    - injection H as <-. split; reflexivity. }
  destruct Hd as [Hurl Hmethod]. rewrite Hurl.
  split; [exact Hmethod |].
  unfold sign_request. split.
  - intros -> Hq. simpl.
    destruct (omit this params (extractParams this path));
      [contradiction | reflexivity].
  - intros [Hget | Hq].
    + apply String.eqb_neq in Hget. rewrite Hget. reflexivity.
    + rewrite Hq. simpl. destruct (String.eqb method_ "GET"); reflexivity.
Qed.

Lemma sign_url_witness :
  exists d : descriptor,
    sign Sample.runtime Sample.exchange "products/{id}/book" "public" "GET"
      [ ("id", VStr "BTC-USD"); ("level", VStr "2") ] VUndef VUndef
    = Return d
    /\ url d = "https://api.gdax.com/products/BTC-USD/book?level=2".
Proof.
  destruct (sign Sample.runtime Sample.exchange "products/{id}/book"
              "public" "GET" [ ("id", VStr "BTC-USD"); ("level", VStr "2") ]
              VUndef VUndef) as [d | e] eqn:Hd;
    [| vm_compute in Hd; discriminate Hd].
  exists d. split; [reflexivity |].
  rewrite (proj1 (proj2 (sign_url Sample.runtime Sample.exchange
                           "products/{id}/book" "public" "GET"
                           [ ("id", VStr "BTC-USD"); ("level", VStr "2") ]
                           VUndef VUndef d Hd)) eq_refl).
  - vm_compute. reflexivity.
  - vm_compute. discriminate.
Defined.

(** X6.  The descriptor of a private request does not depend on the
    headers that the caller hands in: they are replaced by the five
    headers of the exchange, of which [CB-ACCESS-KEY] is the API key,
    [CB-ACCESS-PASSPHRASE] the password and [CB-ACCESS-TIMESTAMP] the nonce
    that was signed. *)
Theorem sign_private_headers :
  forall (rt : Runtime) (this : Exchange) (path method_ : string)
         (params : obj) (headers1 headers2 body_ : value),
    sign rt this path "private" method_ params headers1 body_
    = sign rt this path "private" method_ params headers2 body_
    /\ forall d : descriptor,
         sign rt this path "private" method_ params headers1 body_
         = Return d ->
         exists signature : string,
           headers d
           = VObj [ ("CB-ACCESS-KEY", apiKey this);
                    ("CB-ACCESS-SIGN", VStr signature);
                    ("CB-ACCESS-TIMESTAMP",
                     VStr (number_to_string rt (nonce this)));
                    ("CB-ACCESS-PASSPHRASE", password this);
                    ("Content-Type", VStr "application/json") ].
Proof.
  intros rt this path method_ params headers1 headers2 body_.
  split.
  - unfold sign. simpl.
    destruct (checkRequiredCredentials this) as [[] | e]; simpl;
      [| reflexivity].
    destruct (negb (String.eqb method_ "GET"));
      [destruct (nonempty _) |]; reflexivity.
  - intros d H. apply sign_private in H. subst d. simpl.
    eexists. reflexivity.
Qed.

Lemma sign_private_headers_witness :
  exists d : descriptor,
    sign Sample.runtime Sample.exchange "accounts" "private" "GET" []
      (VObj [ ("X-Custom", VStr "1") ]) VUndef = Return d
    /\ member (headers d) "X-Custom" = VUndef
    /\ member (headers d) "CB-ACCESS-KEY" = VStr "key".
Proof.
  destruct (sign Sample.runtime Sample.exchange "accounts" "private" "GET" []
              (VObj [ ("X-Custom", VStr "1") ]) VUndef) as [d | e] eqn:Hd;
    [| vm_compute in Hd; discriminate Hd].
  exists d. split; [reflexivity |].
  destruct (proj2 (sign_private_headers Sample.runtime Sample.exchange
                     "accounts" "GET" []
                     (VObj [ ("X-Custom", VStr "1") ]) VUndef VUndef) d Hd)
    as [signature Hh].
  rewrite Hh. split; reflexivity.
Defined.

(** X7.  [request] hands back the answer of [fetch2] unchanged, for every
    answer that is an array or an object without the key [message] and
    for no other; an
    object with that key is an [ExchangeError] that carries the id of the
    exchange and the serialized answer, whatever the HTTP status was; what
    [fetch2] throws is thrown on. *)
Theorem request_message :
  forall (this : Exchange) (fetched : result value),
    (forall response : value,
        request this fetched = Return response ->
        fetched = Return response
        /\ ((exists l, response = VArr l)
            \/ (exists o, response = VObj o /\ has o "message" = false)))
    /\ (forall o : obj,
          fetched = Return (VObj o) -> has o "message" = true ->
          request this fetched
          = Throw (ExchangeError (id this ++ " " ++ json this (VObj o))))
    /\ (forall e : exn, fetched = Throw e -> request this fetched = Throw e)
    /\ (forall l : list value,
          fetched = Return (VArr l) ->
          request this fetched = Return (VArr l))
    /\ (forall o : obj,
          fetched = Return (VObj o) -> has o "message" = false ->
          request this fetched = Return (VObj o)).
Proof.
  intros this fetched. split; [| split; [| split; [| split]]].
  - intros response H. unfold request in H.
    destruct fetched as [v | e]; simpl in H; [| discriminate H].
    destruct v; simpl in H; try discriminate H.
    + injection H as <-. split; [reflexivity |]. left. eauto.
    + destruct (has o "message") eqn:Hm; [discriminate H |].
      injection H as <-. split; [reflexivity |]. right. eauto.
  - intros o -> Hm. unfold request. simpl. rewrite Hm. reflexivity.
  - intros e ->. reflexivity.
  - intros l ->. reflexivity.
  - intros o -> Hm. unfold request. simpl. rewrite Hm. reflexivity.
Qed.

Lemma request_message_witness :
  request Sample.exchange
    (Return (VObj [ ("message", VStr "NotFound") ]))
  = Throw (ExchangeError
             ("gdax " ++ Sample.message_body "NotFound")).
Proof.
  rewrite (proj1 (proj2 (request_message Sample.exchange _))
             [ ("message", VStr "NotFound") ] eq_refl eq_refl).
  vm_compute. reflexivity.
Defined.

(** ** Candles, continued *)

(** X8.  [parseOHLCV] always yields six elements; it never reads past the
    sixth element of the row; and on the empty row it yields [NaN] for the
    timestamp and [undefined] five times, without raising. *)
Theorem parseOHLCV_shape :
  forall (rt : Runtime) (row : list value) market timeframe since limit,
    List.length (parseOHLCV rt row market timeframe since limit) = 6%nat
    /\ (forall extra : list value,
          (6 <= List.length row)%nat ->
          parseOHLCV rt (row ++ extra)%list market timeframe since limit
          = parseOHLCV rt row market timeframe since limit)
    /\ parseOHLCV rt [] market timeframe since limit
       = [VNum nan; VUndef; VUndef; VUndef; VUndef; VUndef].
Proof.
  intros rt row market timeframe since limit.
  split; [reflexivity |]. split; [| reflexivity].
  intros extra Hlen. unfold parseOHLCV. cbv zeta.
  rewrite !app_nth1 by lia. reflexivity.
Qed.

Lemma parseOHLCV_shape_witness :
  parseOHLCV Sample.runtime
    ([VNum 1; VNum 2; VNum 3; VNum 4; VNum 5; VNum 6] ++ [VNum 7])%list
    None "1m" VUndef VUndef
  = [VNum 1000; VNum 4; VNum 3; VNum 2; VNum 5; VNum 6].
Proof.
  rewrite (proj1 (proj2 (parseOHLCV_shape Sample.runtime
                           [VNum 1; VNum 2; VNum 3; VNum 4; VNum 5; VNum 6]
                           None "1m" VUndef VUndef)) [VNum 7]).
  - vm_compute. reflexivity.
  - simpl. lia.
Defined.

(** X9.  Reshaping a row twice puts low and open back in the places they
    came from and multiplies the timestamp by 1000 twice: the reshape is
    not idempotent. *)
Theorem parseOHLCV_twice :
  forall (rt : Runtime) (time low high open close volume : value)
         market timeframe since limit,
    parseOHLCV rt
      (parseOHLCV rt [time; low; high; open; close; volume]
         market timeframe since limit)
      market timeframe since limit
    = [VNum (to_number rt time * 1000 * 1000);
       low; high; open; close; volume].
Proof.
  intros; reflexivity.
Qed.

(** ** Trades, continued *)

Lemma get_defined_has (o : obj) (k : string) :
  get o k <> VUndef -> has o k = true.
Proof.
  induction o as [| [k' v'] o IH]; simpl; [congruence |].
  destruct (String.eqb k' k); auto.
Qed.

Lemma lookup_market_in (ms : list (string * obj)) (k : string) (m : obj) :
  NoDup (map fst ms) -> In (k, m) ms -> lookup_market ms k = Some m.
Proof.
  induction ms as [| [k' m'] ms IH]; simpl; intros Hnd Hin; [tauto |].
  inversion Hnd as [| ? ? Hnotin Hnd']; subst.
  destruct Hin as [Heq | Hin].
  - injection Heq as -> ->. now rewrite String.eqb_refl.
  - destruct (String.eqb k' k) eqn:E; [| now apply IH].
    apply String.eqb_eq in E; subst k'.
    exfalso. apply Hnotin. change k with (fst (k, m)). now apply in_map.
Qed.

Lemma lookup_market_absent (ms : list (string * obj)) (k : string) :
  ~ In k (map fst ms) -> lookup_market ms k = None.
Proof.
  induction ms as [| [k' m'] ms IH]; simpl; intro H; [reflexivity |].
  destruct (String.eqb k' k) eqn:E.
  - apply String.eqb_eq in E. tauto.
  - apply IH. tauto.
Qed.

(** X10.  The timestamp of a trade is read from [time] when the payload
    has that key, whatever [created_at] holds, and from [created_at] when
    it has only that one; a payload with neither gets an undefined
    timestamp and an undefined datetime, and [iso8601] is not asked. *)
Theorem parseTrade_timestamp :
  forall (rt : Runtime) (this : Exchange) (trade : obj) (market : option obj),
    let parsed := parseTrade rt this trade market in
    (has trade "time" = true ->
     get parsed "timestamp" = parse8601 this (get trade "time"))
    /\ (has trade "time" = false -> has trade "created_at" = true ->
        get parsed "timestamp" = parse8601 this (get trade "created_at"))
    /\ (has trade "time" = false -> has trade "created_at" = false ->
        get parsed "timestamp" = VUndef /\ get parsed "datetime" = VUndef)
    /\ (get parsed "timestamp" <> VUndef ->
        get parsed "datetime" = iso8601 this (get parsed "timestamp")).
Proof.
  intros rt this trade market parsed.
  assert (Ht : get parsed "timestamp"
               = if has trade "time" then parse8601 this (get trade "time")
                 else if has trade "created_at"
                      then parse8601 this (get trade "created_at")
                      else VUndef) by reflexivity.
  assert (Hd : get parsed "datetime"
               = if negb (is_undefined (get parsed "timestamp"))
                 then iso8601 this (get parsed "timestamp") else VUndef)
    by reflexivity.
  split; [| split; [| split]].
  - intro H. rewrite Ht, H. reflexivity.
  - intros H1 H2. rewrite Ht, H1, H2. reflexivity.
  - intros H1 H2. rewrite Hd, Ht, H1, H2. split; reflexivity.
  - intro H. rewrite Hd.
    apply is_undefined_false in H. rewrite H. reflexivity.
Qed.

Lemma parseTrade_timestamp_witness :
  get (parseTrade Sample.runtime Sample.exchange
         [ ("created_at", VStr "2018-01-01T00:00:01Z");
           ("time", VStr "2018-01-01T00:00:00Z") ] None) "timestamp"
  = VStr "parse8601(2018-01-01T00:00:00Z)".
Proof.
  rewrite (proj1 (parseTrade_timestamp Sample.runtime Sample.exchange
                    [ ("created_at", VStr "2018-01-01T00:00:01Z");
                      ("time", VStr "2018-01-01T00:00:00Z") ] None)
             eq_refl).
  vm_compute. reflexivity.
Defined.

Lemma parseTrade_resolved (rt : Runtime) (this : Exchange) (trade : obj)
    (market : option obj) :
  let resolved :=
    match market with
    | Some m => Some m
    | None =>
        if has trade "product_id" then
          lookup_market (markets_by_id this)
            (to_string rt (get trade "product_id"))
        else None
    end in
  get (parseTrade rt this trade market) "symbol"
  = match resolved with Some m => get m "symbol" | None => VUndef end
  /\ get (parseTrade rt this trade market) "fee"
     = if has trade "fill_fees" then
         VObj [ ("cost", safeFloat this trade "fill_fees");
                ("currency",
                 match resolved with
                 | Some m => get m "quote"
                 | None => VUndef
                 end);
                ("rate", VUndef) ]
       else VUndef.
Proof.
  split; reflexivity.
Qed.

(** X11.  The symbol of a trade is the symbol of the market that is
    handed in, whatever the payload says; without one it is the symbol of
    the market that [markets_by_id] holds under the payload's
    [product_id]; and it is undefined, with no error, when the payload has
    no [product_id] or one that [markets_by_id] does not know. *)
Theorem parseTrade_symbol :
  forall (rt : Runtime) (this : Exchange) (trade : obj),
    (forall m : obj,
        get (parseTrade rt this trade (Some m)) "symbol" = get m "symbol")
    /\ (forall (product : string) (m : obj),
          NoDup (map fst (markets_by_id this)) ->
          get trade "product_id" = VStr product ->
          In (product, m) (markets_by_id this) ->
          get (parseTrade rt this trade None) "symbol" = get m "symbol")
    /\ (forall product : string,
          get trade "product_id" = VStr product ->
          ~ In product (map fst (markets_by_id this)) ->
          get (parseTrade rt this trade None) "symbol" = VUndef)
    /\ (has trade "product_id" = false ->
        get (parseTrade rt this trade None) "symbol" = VUndef).
Proof.
  intros rt this trade.
  split; [| split; [| split]].
  - intro m. reflexivity.
  - intros product m Hnd Hp Hin.
    rewrite (proj1 (parseTrade_resolved rt this trade None)).
    rewrite get_defined_has by (rewrite Hp; discriminate).
    rewrite Hp. simpl.
    rewrite (lookup_market_in _ _ _ Hnd Hin). reflexivity.
  - intros product Hp Hnot.
    rewrite (proj1 (parseTrade_resolved rt this trade None)).
    rewrite get_defined_has by (rewrite Hp; discriminate).
    rewrite Hp. simpl.
    rewrite (lookup_market_absent _ _ Hnot). reflexivity.
  - intro Hno.
    rewrite (proj1 (parseTrade_resolved rt this trade None)).
    rewrite Hno. reflexivity.
Qed.

Lemma parseTrade_symbol_witness :
  get (parseTrade Sample.runtime Sample.exchange
         [ ("product_id", VStr "BTC-USD") ] None) "symbol" = VStr "BTC/USD"
  /\ get (parseTrade Sample.runtime Sample.exchange
            [ ("product_id", VStr "XRP-USD") ] None) "symbol" = VUndef.
Proof.
  split.
  - apply (proj1 (proj2 (parseTrade_symbol Sample.runtime Sample.exchange
                           [ ("product_id", VStr "BTC-USD") ]))
             "BTC-USD" Sample.btc_usd).
    + repeat constructor. simpl. tauto.
    + reflexivity.
    + left. reflexivity.
  - apply (proj1 (proj2 (proj2 (parseTrade_symbol Sample.runtime
                                  Sample.exchange
                                  [ ("product_id", VStr "XRP-USD") ])))
             "XRP-USD").
    + reflexivity.
    + simpl. intros [H | []]. discriminate H.
Defined.

(** X12.  A trade has a fee exactly when its payload has [fill_fees].  The
    fee then has the safe read of [fill_fees] for its cost, an undefined
    rate, and for its currency the quote currency of the market that the
    symbol is taken from: the market that is handed in, else the market
    that [markets_by_id] holds under the payload's [product_id]; the
    currency is undefined when there is no such market. *)
Theorem parseTrade_fee :
  forall (rt : Runtime) (this : Exchange) (trade : obj) (market : option obj),
    let fee := get (parseTrade rt this trade market) "fee" in
    (fee = VUndef <-> has trade "fill_fees" = false)
    /\ (has trade "fill_fees" = true ->
        exists currency : value,
          fee = VObj [ ("cost", safeFloat this trade "fill_fees");
                       ("currency", currency);
                       ("rate", VUndef) ]
          /\ (forall m : obj, market = Some m -> currency = get m "quote")
          /\ (market = None -> has trade "product_id" = false ->
              currency = VUndef)
          /\ (market = None -> has trade "product_id" = true ->
              currency
              = match lookup_market (markets_by_id this)
                        (to_string rt (get trade "product_id")) with
                | Some m => get m "quote"
                | None => VUndef
                end)
          /\ (forall (product : string) (m : obj),
                market = None ->
                NoDup (map fst (markets_by_id this)) ->
                get trade "product_id" = VStr product ->
                In (product, m) (markets_by_id this) ->
                currency = get m "quote")
          /\ (forall product : string,
                market = None ->
                get trade "product_id" = VStr product ->
                ~ In product (map fst (markets_by_id this)) ->
                currency = VUndef)).
Proof.
  intros rt this trade market fee. subst fee.
  rewrite (proj2 (parseTrade_resolved rt this trade market)).
  split.
  - destruct (has trade "fill_fees"); split; intro H;
      try reflexivity; discriminate H.
  - intros ->. eexists. split; [reflexivity |].
    split; [| split; [| split; [| split]]].
    + intros m ->. reflexivity.
    + intros -> ->. reflexivity.
    + intros -> ->. reflexivity.
    + intros product m -> Hnd Hp Hin.
      rewrite get_defined_has by (rewrite Hp; discriminate).
      rewrite Hp. simpl.
      rewrite (lookup_market_in _ _ _ Hnd Hin). reflexivity.
    + intros product -> Hp Hnot.
      rewrite get_defined_has by (rewrite Hp; discriminate).
      rewrite Hp. simpl.
      rewrite (lookup_market_absent _ _ Hnot). reflexivity.
Qed.

(** A private fill: no market is handed in, and the payload names its
    product. *)
Lemma parseTrade_fee_witness :
  get (parseTrade Sample.runtime Sample.exchange
         [ ("product_id", VStr "BTC-USD"); ("fill_fees", VStr "3") ] None)
    "fee"
  = VObj [ ("cost", VNum 3); ("currency", VStr "USD"); ("rate", VUndef) ].
Proof.
  destruct (proj2 (parseTrade_fee Sample.runtime Sample.exchange
                     [ ("product_id", VStr "BTC-USD");
                       ("fill_fees", VStr "3") ] None) eq_refl)
    as [currency [Hfee [_ [_ [_ [Hknown _]]]]]].
  cbv zeta in Hfee. rewrite Hfee.
  rewrite (Hknown "BTC-USD" Sample.btc_usd eq_refl).
  - vm_compute. reflexivity.
  - repeat constructor. simpl. tauto.
  - reflexivity.
  - left. reflexivity.
Defined.

(** X13.  The side of a parsed trade is always ["buy"] or ["sell"], and it
    is ["buy"] for every payload whose side is not the string ["buy"]: a
    payload without a side, or with any other value there, is reported as
    a buy.  The liquidity flag ["T"] gives the type ["Taker"], any other
    flag ["Maker"], and no flag leaves the type undefined. *)
Theorem parseTrade_side_and_type :
  forall (rt : Runtime) (this : Exchange) (trade : obj) (market : option obj),
    let parsed := parseTrade rt this trade market in
    (get parsed "side" = VStr "buy" \/ get parsed "side" = VStr "sell")
    /\ (get trade "side" <> VStr "buy" -> get parsed "side" = VStr "buy")
    /\ (get trade "liquidity" = VStr "T" -> get parsed "type" = VStr "Taker")
    /\ (has trade "liquidity" = true -> get trade "liquidity" <> VStr "T" ->
        get parsed "type" = VStr "Maker")
    /\ (has trade "liquidity" = false -> get parsed "type" = VUndef).
Proof.
  intros rt this trade market parsed. subst parsed.
  rewrite parseTrade_side.
  assert (Ht : get (parseTrade rt this trade market) "type"
               = if has trade "liquidity" then
                   if is_string (get trade "liquidity") "T" then VStr "Taker"
                   else VStr "Maker"
                 else VUndef) by reflexivity.
  rewrite Ht.
  split; [| split; [| split; [| split]]].
  - destruct (is_string (get trade "side") "buy"); auto.
  - intro H. apply is_string_false in H. rewrite H. reflexivity.
  - intro H. rewrite get_defined_has by (rewrite H; discriminate).
    rewrite H. reflexivity.
  - intros H1 H2. apply is_string_false in H2. rewrite H1, H2. reflexivity.
  - intros ->. reflexivity.
Qed.

Lemma parseTrade_side_and_type_witness :
  get (parseTrade Sample.runtime Sample.exchange
         [ ("liquidity", VStr "M") ] None) "side" = VStr "buy"
  /\ get (parseTrade Sample.runtime Sample.exchange
            [ ("liquidity", VStr "M") ] None) "type" = VStr "Maker".
Proof.
  destruct (parseTrade_side_and_type Sample.runtime Sample.exchange
              [ ("liquidity", VStr "M") ] None)
    as [_ [Hside [_ [Hmaker _]]]].
  split.
  - apply Hside. discriminate.
  - apply Hmaker; [reflexivity | discriminate].
Defined.

(** ** Orders, continued *)

Lemma parseOrder_remaining_eq (rt : Runtime) (this : Exchange) (order : obj)
    (market : option obj) :
  let parsed := parseOrder rt this order market in
  get parsed "filled" = safeFloat this order "filled_size"
  /\ get parsed "remaining"
     = if negb (is_undefined (get parsed "amount")) then
         if negb (is_undefined (get parsed "filled")) then
           sub rt (get parsed "amount") (get parsed "filled")
         else VUndef
       else VUndef.
Proof.
  split; reflexivity.
Qed.

(** X14.  In a parsed order, [remaining] is the difference of the record's
    own [amount] and [filled] when both are defined, and undefined as soon
    as one of them is; it is never read from the payload.  When [size] is
    missing the amount is [funds], so that [remaining] is then [funds]
    minus [filled_size]. *)
Theorem parseOrder_remaining :
  forall (rt : Runtime) (this : Exchange) (order : obj) (market : option obj),
    let parsed := parseOrder rt this order market in
    (get parsed "amount" = VUndef \/ get parsed "filled" = VUndef ->
     get parsed "remaining" = VUndef)
    /\ (forall a f : float,
          get parsed "amount" = VNum a -> get parsed "filled" = VNum f ->
          get parsed "remaining" = VNum (a - f))
    /\ (forall a f : float,
          safeFloat this order "size" = VUndef ->
          safeFloat this order "funds" = VNum a ->
          safeFloat this order "filled_size" = VNum f ->
          get parsed "remaining" = VNum (a - f)).
Proof.
  intros rt this order market parsed.
  destruct (parseOrder_remaining_eq rt this order market) as [Hf Hr].
  fold parsed in Hf, Hr.
  split; [| split].
  - intros [H | H]; rewrite Hr, H; [reflexivity |].
    destruct (negb (is_undefined (get parsed "amount"))); reflexivity.
  - intros a f Ha Hfilled. rewrite Hr, Ha, Hfilled. reflexivity.
  - intros a f Hsize Hfunds Hfilled.
    assert (Ha : get parsed "amount" = VNum a).
    { unfold parsed. rewrite parseOrder_amount. simpl.
      rewrite Hsize, Hfunds. reflexivity. }
    rewrite Hr, Ha, Hf, Hfilled. reflexivity.
Qed.

Lemma parseOrder_remaining_witness :
  get (parseOrder Sample.runtime Sample.exchange
         [ ("funds", VStr "10"); ("filled_size", VStr "4") ] None) "remaining"
  = VNum 6.
Proof.
  rewrite (proj2 (proj2 (parseOrder_remaining Sample.runtime Sample.exchange
                           [ ("funds", VStr "10"); ("filled_size", VStr "4") ]
                           None)) 10%float 4%float);
    vm_compute; reflexivity.
Defined.

(** X15.  The symbol of a parsed order is the symbol of the market that is
    handed in; without one it is looked up in [markets_by_id] under the
    payload's [product_id], and it is undefined, with no error, when that
    id is not known.  The payload is not asked whether it has a
    [product_id]: without one the key that is looked up is the text
    ["undefined"]. *)
Theorem parseOrder_symbol :
  forall (rt : Runtime) (this : Exchange) (order : obj),
    (forall m : obj,
        get (parseOrder rt this order (Some m)) "symbol" = get m "symbol")
    /\ (forall (product : string) (m : obj),
          NoDup (map fst (markets_by_id this)) ->
          get order "product_id" = VStr product ->
          In (product, m) (markets_by_id this) ->
          get (parseOrder rt this order None) "symbol" = get m "symbol")
    /\ (forall product : string,
          get order "product_id" = VStr product ->
          ~ In product (map fst (markets_by_id this)) ->
          get (parseOrder rt this order None) "symbol" = VUndef)
    /\ (has order "product_id" = false ->
        get (parseOrder rt this order None) "symbol"
        = match lookup_market (markets_by_id this) "undefined" with
          | Some m => get m "symbol"
          | None => VUndef
          end).
Proof.
  intros rt this order.
  assert (Hs : get (parseOrder rt this order None) "symbol"
               = match lookup_market (markets_by_id this)
                         (to_string rt (get order "product_id")) with
                 | Some m => get m "symbol"
                 | None => VUndef
                 end) by reflexivity.
  split; [| split; [| split]].
  - intro m. reflexivity.
  - intros product m Hnd Hp Hin. rewrite Hs, Hp. simpl.
    rewrite (lookup_market_in _ _ _ Hnd Hin). reflexivity.
  - intros product Hp Hnot. rewrite Hs, Hp. simpl.
    rewrite (lookup_market_absent _ _ Hnot). reflexivity.
  - intro Hno. rewrite Hs.
    assert (Hg : get order "product_id" = VUndef).
    { destruct (get order "product_id") eqn:E; try reflexivity;
        rewrite get_defined_has in Hno by (rewrite E; discriminate);
        discriminate Hno. }
    rewrite Hg. reflexivity.
Qed.

Lemma parseOrder_symbol_witness :
  get (parseOrder Sample.runtime Sample.exchange
         [ ("product_id", VStr "BTC-USD") ] None) "symbol" = VStr "BTC/USD"
  /\ get (parseOrder Sample.runtime Sample.exchange
            [ ("id", VStr "1") ] None) "symbol" = VUndef.
Proof.
  split.
  - apply (proj1 (proj2 (parseOrder_symbol Sample.runtime Sample.exchange
                           [ ("product_id", VStr "BTC-USD") ]))
             "BTC-USD" Sample.btc_usd).
    + repeat constructor. simpl. tauto.
    + reflexivity.
    + left. reflexivity.
  - rewrite (proj2 (proj2 (proj2 (parseOrder_symbol Sample.runtime
                                    Sample.exchange [ ("id", VStr "1") ])))
               eq_refl).
    reflexivity.
Defined.

(** ** Markets, continued *)

(** X16.  The market that [fetchMarkets] builds for a product holds, under
    [id], [base], [quote], [symbol], [active] and [info], the product's
    id, its two currencies, their texts joined by a slash, whether its
    status is ["online"], and the product itself - whatever
    [this.fees['trading']] holds under these names; and it holds every
    other entry of [this.fees['trading']] unchanged. *)
Theorem fetchMarkets_fields :
  forall (rt : Runtime) (this : Exchange) (h : forall T, event T -> T)
         (p : nat) (product : obj),
    nth_error (h _ PublicGetProducts) p = Some product ->
    exists (result : list value) (market : obj),
      run h (fetchMarkets rt this)
      = ([Awaited PublicGetProducts], Return result)
      /\ nth_error result p = Some (VObj market)
      /\ get market "id" = get product "id"
      /\ get market "base" = get product "base_currency"
      /\ get market "quote" = get product "quote_currency"
      /\ get market "symbol"
         = VStr (to_string rt (get product "base_currency") ++ "/"
                 ++ to_string rt (get product "quote_currency"))
      /\ get market "active"
         = VBool (is_string (get product "status") "online")
      /\ get market "info" = VObj product
      /\ (forall k : string,
            ~ In k market_fields ->
            get market k = get (fees_trading this) k).
Proof.
  intros rt this h p product Hp.
  eexists. eexists.
  split; [reflexivity |].
  split; [rewrite (map_nth_error _ _ _ Hp); cbv beta zeta; reflexivity |].
  repeat match goal with
         | |- _ /\ _ => split
         end.
  - match goal with
    | |- context [extend _ (("id", ?v) :: ?rest)] =>
        exact (get_extend_last (fees_trading this) [] rest "id" v eq_refl)
    end.
  - match goal with
    | |- context [extend _ (?e1 :: ?e2 :: ("base", ?v) :: ?rest)] =>
        exact (get_extend_last (fees_trading this) [e1; e2] rest "base" v
                 eq_refl)
    end.
  - match goal with
    | |- context [extend _ (?e1 :: ?e2 :: ?e3 :: ("quote", ?v) :: ?rest)] =>
        exact (get_extend_last (fees_trading this) [e1; e2; e3] rest "quote"
                 v eq_refl)
    end.
  - match goal with
    | |- context [extend _ (?e1 :: ("symbol", ?v) :: ?rest)] =>
        exact (get_extend_last (fees_trading this) [e1] rest "symbol" v
                 eq_refl)
    end.
  - match goal with
    | |- context [extend _ (?e1 :: ?e2 :: ?e3 :: ?e4 :: ?e5 :: ?e6 :: ?e7
                              :: ("active", ?v) :: ?rest)] =>
        exact (get_extend_last (fees_trading this)
                 [e1; e2; e3; e4; e5; e6; e7] rest "active" v eq_refl)
    end.
  - match goal with
    | |- context [extend _ (?e1 :: ?e2 :: ?e3 :: ?e4 :: ?e5 :: ?e6 :: ?e7
                              :: ?e8 :: ("info", ?v) :: ?rest)] =>
        exact (get_extend_last (fees_trading this)
                 [e1; e2; e3; e4; e5; e6; e7; e8] rest "info" v eq_refl)
    end.
  - intros k Hk. apply get_extend_absent.
    apply not_in_has_false. exact Hk.
Qed.

Lemma fetchMarkets_fields_witness :
  exists (result : list value) (market : obj),
    run Sample.answers (fetchMarkets Sample.runtime Sample.exchange)
    = ([Awaited PublicGetProducts], Return result)
    /\ nth_error result 1 = Some (VObj market)
    /\ get market "symbol" = VStr "ETH/USD"
    /\ get market "active" = VBool true
    /\ get market "maker" = VNum 0.
Proof.
  destruct (fetchMarkets_fields Sample.runtime Sample.exchange Sample.answers
              1%nat _ eq_refl)
    as [result [market [Hrun [Hnth [_ [_ [_ [Hsym [Hact [_ Hrest]]]]]]]]]].
  exists result, market.
  split; [exact Hrun |]. split; [exact Hnth |].
  split; [rewrite Hsym; reflexivity |].
  split; [rewrite Hact; reflexivity |].
  rewrite Hrest; [reflexivity |].
  simpl. intros [H | [H | [H | [H | [H | [H | [H | [H | [H | []]]]]]]]]];
    discriminate H.
Defined.

(** ** Deposits and withdrawals, continued *)

(** The endpoint methods that the class calls by a fixed name are all
    made from the table, and so are the two deposits and two of the three
    withdrawals that are called by a computed name. *)
Lemma called_methods_are_endpoints :
  forallb is_endpoint_method
    [ "publicGetProducts"; "privateGetAccounts"; "publicGetProductsIdBook";
      "publicGetProductsIdTicker"; "privateGetFills";
      "publicGetProductsIdTrades"; "publicGetProductsIdCandles";
      "publicGetTime"; "privateGetOrdersId"; "privateGetOrders";
      "privatePostOrders"; "privateDeleteOrdersId";
      "privateGetPaymentMethods"; "privatePostDepositsPaymentMethod";
      "privatePostDepositsCoinbaseAccount";
      "privatePostWithdrawalsPaymentMethod";
      "privatePostWithdrawalsCrypto" ] = true.
Proof.
  reflexivity.
Qed.

(** X17.  [deposit] chooses its endpoint by the extra parameters:
    [payment_method_id] selects the payment-method deposit even when
    [coinbase_account_id] is there as well, and [coinbase_account_id]
    alone the Coinbase-account deposit.  In both cases it is called once,
    after [loadMarkets], with the currency and the amount extended by the
    extra parameters; the address is not sent. *)
Theorem deposit_routing :
  forall (this : Exchange) (currency amount address : value) (params : obj)
         (h : forall T, event T -> T),
    let sent := extend [ ("currency", currency); ("amount", amount) ] params in
    (has params "payment_method_id" = true ->
     fst (run h (deposit this currency amount address params))
     = [ Awaited LoadMarkets;
         Awaited (Invoke "privatePostDepositsPaymentMethod" sent) ])
    /\ (has params "payment_method_id" = false ->
        has params "coinbase_account_id" = true ->
        fst (run h (deposit this currency amount address params))
        = [ Awaited LoadMarkets;
            Awaited (Invoke "privatePostDepositsCoinbaseAccount" sent) ]).
Proof.
  intros this currency amount address params h sent. subst sent.
  split.
  - intro Hpm. unfold deposit. simpl. rewrite Hpm. simpl.
    destruct (truthy _); reflexivity.
  - intros Hpm Hcb. unfold deposit. simpl. rewrite Hpm, Hcb. simpl.
    destruct (truthy _); reflexivity.
Qed.

Lemma deposit_routing_witness :
  fst (run Sample.answers
         (deposit Sample.exchange (VStr "USD") (VNum 10) (VStr "address")
            [ ("coinbase_account_id", VStr "c"); 
              ("payment_method_id", VStr "p") ]))
  = [ Awaited LoadMarkets;
      Awaited (Invoke "privatePostDepositsPaymentMethod"
                 [ ("currency", VStr "USD"); ("amount", VNum 10);
                   ("coinbase_account_id", VStr "c");
                   ("payment_method_id", VStr "p") ]) ].
Proof.
  exact (proj1 (deposit_routing Sample.exchange (VStr "USD") (VNum 10)
                  (VStr "address")
                  [ ("coinbase_account_id", VStr "c");
                    ("payment_method_id", VStr "p") ] Sample.answers)
           eq_refl).
Defined.



(** X19.  What [deposit] and [withdraw] make of the answer of the
    endpoint they have called: an answer that is falsy ([undefined],
    [null], [false], 0, [NaN] or the empty string) is an [ExchangeError]
    naming the method and the serialized answer; any other answer is
    returned as [info] with its [id], which is undefined when the answer
    is no object.  The withdrawal to a Coinbase account has no answer:
    it ends with [TypeError]. *)
Theorem deposit_withdraw_answer :
  forall (this : Exchange) (currency amount address tag : value)
         (params : obj) (h : forall T, event T -> T),
    let request := [ ("currency", currency); ("amount", amount) ] in
    let by_payment := has params "payment_method_id" in
    let by_coinbase := has params "coinbase_account_id" in
    let outcome (method_ : string) (answer : value) : result obj :=
      if truthy answer then
        Return [ ("info", answer); ("id", member answer "id") ]
      else
        Throw (ExchangeError
                 (id this ++ " " ++ method_ ++ "() error: "
                  ++ json this answer)) in
    (by_payment = true \/ by_coinbase = true ->
     snd (run h (deposit this currency amount address params))
     = outcome "deposit"
         (h _ (Invoke
                 ("privatePostDeposits"
                  ++ (if by_payment then "PaymentMethod"
                      else "CoinbaseAccount"))
                 (extend request params))))
    /\ snd (run h (withdraw this currency amount address tag params))
       = if by_payment then
           outcome "withdraw"
             (h _ (Invoke "privatePostWithdrawalsPaymentMethod"
                     (extend request params)))
         else if by_coinbase then Throw TypeError
         else
           outcome "withdraw"
             (h _ (Invoke "privatePostWithdrawalsCrypto"
                     (extend
                        (request ++ [ ("crypto_address", address) ])%list
                        params))).
Proof.
  intros this currency amount address tag params h request by_payment
    by_coinbase outcome.
  subst outcome by_payment by_coinbase request.
  unfold deposit, withdraw. simpl.
  destruct (has params "payment_method_id"); simpl.
  - unfold call_by_name. simpl.
    split; [intros _ |]; destruct (truthy _); reflexivity.
  - destruct (has params "coinbase_account_id"); simpl.
    + unfold call_by_name. simpl.
      split; [intros _; destruct (truthy _) |]; reflexivity.
    + unfold call_by_name. simpl.
      split; [intros [H | H]; discriminate H |].
      destruct (truthy _); reflexivity.
Qed.

Lemma deposit_withdraw_answer_witness :
  snd (run Sample.answers
         (deposit Sample.exchange (VStr "USD") (VNum 10) VUndef
            [ ("payment_method_id", VStr "p") ]))
  = Return [ ("info",
              VObj [ ("id", VStr "1");
                     ("method", VStr "privatePostDepositsPaymentMethod") ]);
             ("id", VStr "1") ].
Proof.
  rewrite (proj1 (deposit_withdraw_answer Sample.exchange (VStr "USD")
                    (VNum 10) VUndef VUndef
                    [ ("payment_method_id", VStr "p") ] Sample.answers)).
  - reflexivity.
  - left. reflexivity.
Defined.

(** ** Requests for market data and orders *)

(** X20.  A symbol that cannot be resolved stops a method right after
    [loadMarkets]: the error of the lookup is thrown and no endpoint is
    called.  This holds for [fetchOHLCV], [fetchTrades], [fetchOrderBook]
    and [createOrder] with any symbol, for [fetchMyTrades] with a symbol
    that is not [undefined], and for the three order listings with a
    symbol that is truthy. *)
Theorem unresolved_symbol_stops :
  forall (rt : Runtime) (this : Exchange) (base : Inherited)
         (symbol : value) (e : exn) (h : forall T, event T -> T),
    (market this symbol = Throw e ->
     (forall timeframe since limit params,
         run h (fetchOHLCV rt this symbol timeframe since limit params)
         = ([Awaited LoadMarkets], Throw e))
     /\ (forall since limit params,
           run h (fetchTrades this base symbol since limit params)
           = ([Awaited LoadMarkets], Throw e))
     /\ (symbol <> VUndef ->
         forall since limit params,
           run h (fetchMyTrades this base symbol since limit params)
           = ([Awaited LoadMarkets], Throw e))
     /\ (truthy symbol = true ->
         forall since limit params,
           run h (fetchOrders this base symbol since limit params)
           = ([Awaited LoadMarkets], Throw e)
           /\ run h (fetchOpenOrders this base symbol since limit params)
              = ([Awaited LoadMarkets], Throw e)
           /\ run h (fetchClosedOrders this base symbol since limit params)
              = ([Awaited LoadMarkets], Throw e)))
    /\ (marketId base symbol = Throw e ->
        (forall params,
            run h (fetchOrderBook base symbol params)
            = ([Awaited LoadMarkets], Throw e))
        /\ (forall type side amount price params,
              run h (createOrder base symbol type side amount price params)
              = ([Awaited LoadMarkets], Throw e))).
Proof.
  intros rt this base symbol e h. split.
  - intro Hm. split; [| split; [| split]].
    + intros. unfold fetchOHLCV. simpl. rewrite Hm. reflexivity.
    + intros. unfold fetchTrades. simpl. rewrite Hm. reflexivity.
    + intros Hs since limit params. apply is_undefined_false in Hs.
      unfold fetchMyTrades. simpl. rewrite Hs, Hm. reflexivity.
    + intros Hs since limit params.
      unfold fetchOrders, fetchOpenOrders, fetchClosedOrders. simpl.
      rewrite Hs, Hm. repeat split.
  - intro Hm. split.
    + intros. unfold fetchOrderBook. simpl. rewrite Hm. reflexivity.
    + intros. unfold createOrder. simpl. rewrite Hm. reflexivity.
Qed.

Lemma unresolved_symbol_stops_witness :
  run Sample.answers
    (fetchTrades Sample.exchange SampleRequests.inherited (VStr "XRP/USD")
       VUndef VUndef [])
  = ([Awaited LoadMarkets],
     Throw (ExchangeError "gdax No market symbol XRP/USD")).
Proof.
  apply (proj1 (unresolved_symbol_stops Sample.runtime Sample.exchange
                  SampleRequests.inherited (VStr "XRP/USD")
                  (ExchangeError "gdax No market symbol XRP/USD")
                  Sample.answers)).
  reflexivity.
Defined.

(** X21.  When both [since] and [limit] are given, [fetchOHLCV] uses the
    limit as it is - it is not capped at 350 - for the [end] of its
    request, and passes it on unchanged to the parser of the rows. *)
Theorem fetchOHLCV_explicit_limit :
  forall (rt : Runtime) (this : Exchange) (symbol : value)
         (timeframe : string) (since limit : value) (params resolved : obj)
         (h : forall T, event T -> T),
    market this symbol = Return resolved ->
    since <> VUndef -> limit <> VUndef ->
    let granularity := get (timeframes this) timeframe in
    let request :=
      [ ("id", get resolved "id");
        ("granularity", granularity);
        ("start", YmdHMS this since);
        ("end",
         YmdHMS this
           (sum this (mul rt (mul rt limit granularity) (VNum 1000))
              since)) ] in
    let call := Invoke "publicGetProductsIdCandles" (extend request params) in
    run h (fetchOHLCV rt this symbol timeframe since limit params)
    = ([Awaited LoadMarkets; Awaited call],
       Return (parseOHLCVs this (h _ call) resolved timeframe since limit)).
Proof.
  intros rt this symbol timeframe since limit params resolved h Hm Hs Hl.
  cbv zeta.
  apply is_undefined_false in Hs, Hl.
  unfold fetchOHLCV, fetchOHLCV_request. simpl.
  rewrite Hm, Hs, Hl. reflexivity.
Qed.

Lemma fetchOHLCV_explicit_limit_witness :
  fst (run Sample.answers
         (fetchOHLCV Sample.runtime Sample.exchange (VStr "BTC/USD") "1h"
            (VNum 1514764800000) (VNum 1000) []))
  = [ Awaited LoadMarkets;
      Awaited (Invoke "publicGetProductsIdCandles"
                 [ ("id", VStr "BTC-USD");
                   ("granularity", VNum 3600);
                   ("start", VStr "YmdHMS(1514764800000)");
                   ("end", VStr "YmdHMS(1518364800000)") ]) ].
Proof.
  assert (Hs : VNum 1514764800000 <> VUndef) by discriminate.
  assert (Hl : VNum 1000 <> VUndef) by discriminate.
  rewrite (fetchOHLCV_explicit_limit Sample.runtime Sample.exchange
             (VStr "BTC/USD") "1h" (VNum 1514764800000) (VNum 1000) []
             Sample.btc_usd Sample.answers eq_refl Hs Hl).
  vm_compute. reflexivity.
Defined.

(** X22.  [fetchOrderBook] asks for the book of the resolved market at
    level 2; a [level] or an [id] among the extra parameters replaces
    the one it has set. *)
Theorem fetchOrderBook_request :
  forall (base : Inherited) (symbol resolved : value) (params : obj)
         (h : forall T, event T -> T),
    marketId base symbol = Return resolved ->
    let sent := extend [ ("id", resolved); ("level", VNum 2) ] params in
    run h (fetchOrderBook base symbol params)
    = ([ Awaited LoadMarkets;
         Awaited (Invoke "publicGetProductsIdBook" sent) ],
       Return (parseOrderBook base
                 (h _ (Invoke "publicGetProductsIdBook" sent))))
    /\ (has params "level" = false -> get sent "level" = VNum 2)
    /\ (has params "id" = false -> get sent "id" = resolved)
    /\ (NoDup (map fst params) ->
        forall k : string,
          has params k = true -> get sent k = get params k).
Proof.
  intros base symbol resolved params h Hm sent. subst sent.
  split.
  - unfold fetchOrderBook. simpl. rewrite Hm. reflexivity.
  - split; [| split].
    + intro H. rewrite get_extend_absent by assumption. reflexivity.
    + intro H. rewrite get_extend_absent by assumption. reflexivity.
    + intros Hnd k Hk. now apply get_extend_present.
Qed.

Lemma fetchOrderBook_request_witness :
  fst (run Sample.answers
         (fetchOrderBook SampleRequests.inherited (VStr "BTC/USD")
            [ ("level", VNum 3) ]))
  = [ Awaited LoadMarkets;
      Awaited (Invoke "publicGetProductsIdBook"
                 [ ("id", VStr "BTC-USD"); ("level", VNum 3) ]) ].
Proof.
  rewrite (proj1 (fetchOrderBook_request SampleRequests.inherited
                    (VStr "BTC/USD") (VStr "BTC-USD") [ ("level", VNum 3) ]
                    Sample.answers eq_refl)).
  reflexivity.
Defined.

(** X23.  The three order listings call the same endpoint and differ in
    the [status] they set: ["all"] for [fetchOrders], ["done"] for
    [fetchClosedOrders], none for [fetchOpenOrders].  A symbol that is
    falsy (undefined, or the empty string) is not looked up and sets no
    [product_id]; any other symbol sets the id of its market.  [since] and
    [limit] go to the parser only, never into the request. *)
Theorem order_listings :
  forall (this : Exchange) (base : Inherited) (symbol since limit : value)
         (params : obj) (h : forall T, event T -> T),
    let expected (request : obj) (found : option obj) :=
      let call := Invoke "privateGetOrders" (extend request params) in
      ([Awaited LoadMarkets; Awaited call],
       Return (parseOrders base (h _ call) found since limit)) in
    (truthy symbol = false ->
     run h (fetchOrders this base symbol since limit params)
     = expected [ ("status", VStr "all") ] None
     /\ run h (fetchOpenOrders this base symbol since limit params)
        = expected [] None
     /\ run h (fetchClosedOrders this base symbol since limit params)
        = expected [ ("status", VStr "done") ] None)
    /\ (forall found : obj,
          truthy symbol = true -> market this symbol = Return found ->
          run h (fetchOrders this base symbol since limit params)
          = expected [ ("status", VStr "all");
                       ("product_id", get found "id") ] (Some found)
          /\ run h (fetchOpenOrders this base symbol since limit params)
             = expected [ ("product_id", get found "id") ] (Some found)
          /\ run h (fetchClosedOrders this base symbol since limit params)
             = expected [ ("status", VStr "done");
                          ("product_id", get found "id") ] (Some found)).
Proof.
  intros this base symbol since limit params h expected. subst expected.
  split.
  - intro Hs.
    unfold fetchOrders, fetchOpenOrders, fetchClosedOrders. simpl.
    rewrite Hs. repeat split.
  - intros found Hs Hm.
    unfold fetchOrders, fetchOpenOrders, fetchClosedOrders. simpl.
    rewrite Hs, Hm. repeat split.
Qed.

Lemma order_listings_witness :
  fst (run Sample.answers
         (fetchClosedOrders Sample.exchange SampleRequests.inherited
            (VStr "") VUndef VUndef []))
  = [ Awaited LoadMarkets;
      Awaited (Invoke "privateGetOrders" [ ("status", VStr "done") ]) ]
  /\ fst (run Sample.answers
            (fetchOpenOrders Sample.exchange SampleRequests.inherited
               (VStr "BTC/USD") VUndef VUndef []))
     = [ Awaited LoadMarkets;
         Awaited (Invoke "privateGetOrders"
                    [ ("product_id", VStr "BTC-USD") ]) ].
Proof.
  split.
  - destruct (proj1 (order_listings Sample.exchange SampleRequests.inherited
                       (VStr "") VUndef VUndef [] Sample.answers) eq_refl)
      as [_ [_ Hclosed]].
    rewrite Hclosed. reflexivity.
  - destruct (proj2 (order_listings Sample.exchange SampleRequests.inherited
                       (VStr "BTC/USD") VUndef VUndef [] Sample.answers)
                Sample.btc_usd eq_refl eq_refl)
      as [_ [Hopen _]].
    rewrite Hopen. reflexivity.
Defined.

(** X24.  [fetchTrades] sends the id of the market and the extra
    parameters, and neither [since] nor [limit]; [fetchMyTrades] sends a
    [product_id] exactly when it is given a symbol and a [limit] exactly
    when it is given one, and never [since].  Both hand [since] and
    [limit] to the parser of the answer. *)
Theorem trade_listings :
  forall (this : Exchange) (base : Inherited) (symbol since limit : value)
         (params : obj) (h : forall T, event T -> T),
    let expected (name : string) (request : obj) (found : option obj) :=
      let call := Invoke name (extend request params) in
      ([Awaited LoadMarkets; Awaited call],
       Return (parseTrades base (h _ call) found since limit)) in
    let limited (request : obj) :=
      if is_undefined limit then request
      else (request ++ [ ("limit", limit) ])%list in
    (forall found : obj,
        market this symbol = Return found ->
        run h (fetchTrades this base symbol since limit params)
        = expected "publicGetProductsIdTrades"
            [ ("id", get found "id") ] (Some found))
    /\ (symbol = VUndef ->
        run h (fetchMyTrades this base symbol since limit params)
        = expected "privateGetFills" (limited []) None)
    /\ (forall found : obj,
          symbol <> VUndef -> market this symbol = Return found ->
          run h (fetchMyTrades this base symbol since limit params)
          = expected "privateGetFills"
              (limited [ ("product_id", get found "id") ]) (Some found)).
Proof.
  intros this base symbol since limit params h expected limited.
  subst expected limited.
  split; [| split].
  - intros found Hm. unfold fetchTrades. simpl. rewrite Hm. reflexivity.
  - intros ->. unfold fetchMyTrades. simpl.
    destruct (is_undefined limit); reflexivity.
  - intros found Hs Hm. apply is_undefined_false in Hs.
    unfold fetchMyTrades. simpl. rewrite Hs, Hm. simpl.
    destruct (is_undefined limit); reflexivity.
Qed.

Lemma trade_listings_witness :
  fst (run Sample.answers
         (fetchMyTrades Sample.exchange SampleRequests.inherited
            (VStr "BTC/USD") (VNum 1514764800000) (VNum 10) []))
  = [ Awaited LoadMarkets;
      Awaited (Invoke "privateGetFills"
                 [ ("product_id", VStr "BTC-USD"); ("limit", VNum 10) ]) ].
Proof.
  assert (Hs : VStr "BTC/USD" <> VUndef) by discriminate.
  rewrite (proj2 (proj2 (trade_listings Sample.exchange
                           SampleRequests.inherited (VStr "BTC/USD")
                           (VNum 1514764800000) (VNum 10) [] Sample.answers))
             Sample.btc_usd Hs eq_refl).
  reflexivity.
Defined.

(** X25.  [createOrder] sends the product id, the side, the amount as
    [size] and the type, and a [price] exactly when the type is the
    string ["limit"]: for any other type the price it is given is dropped.
    The answer comes back as [info] with its [id]; an answer that is
    [undefined] or [null] raises [TypeError], after the order was sent. *)
Theorem createOrder_request :
  forall (base : Inherited) (symbol type side amount price : value)
         (params : obj) (product : value) (h : forall T, event T -> T),
    marketId base symbol = Return product ->
    let order :=
      ([ ("product_id", product); ("side", side); ("size", amount);
         ("type", type) ]
       ++ (if is_string type "limit" then [ ("price", price) ] else []))%list in
    let call := Invoke "privatePostOrders" (extend order params) in
    let answer := h _ call in
    fst (run h (createOrder base symbol type side amount price params))
    = [Awaited LoadMarkets; Awaited call]
    /\ (type <> VStr "limit" -> has params "price" = false ->
        has (extend order params) "price" = false)
    /\ (answer = VUndef \/ answer = VNull ->
        snd (run h (createOrder base symbol type side amount price params))
        = Throw TypeError)
    /\ (answer <> VUndef -> answer <> VNull ->
        snd (run h (createOrder base symbol type side amount price params))
        = Return [ ("info", answer); ("id", member answer "id") ]).
Proof.
  intros base symbol type side amount price params product h Hm
    order call answer.
  assert (Hrun :
            run h (createOrder base symbol type side amount price params)
            = ([Awaited LoadMarkets; Awaited call],
               id_ <- property answer "id" ;;
               Return [ ("info", answer); ("id", id_) ])).
  { subst answer call order. unfold createOrder. simpl. rewrite Hm.
    destruct (is_string type "limit"); reflexivity. }
  rewrite Hrun. cbn [fst snd]. clearbody answer.
  split; [reflexivity |].
  split.
  - intros Ht Hp. apply is_string_false in Ht.
    subst order. rewrite Ht, has_extend, Hp. reflexivity.
  - split.
    + intros [-> | ->]; reflexivity.
    + intros H1 H2. destruct answer; try reflexivity; contradiction.
Qed.

Lemma createOrder_request_witness :
  fst (run Sample.answers
         (createOrder SampleRequests.inherited (VStr "BTC/USD")
            (VStr "market") (VStr "buy") (VNum 1) (VNum 9000) []))
  = [ Awaited LoadMarkets;
      Awaited (Invoke "privatePostOrders"
                 [ ("product_id", VStr "BTC-USD"); ("side", VStr "buy");
                   ("size", VNum 1); ("type", VStr "market") ]) ].
Proof.
  rewrite (proj1 (createOrder_request SampleRequests.inherited
                    (VStr "BTC/USD") (VStr "market") (VStr "buy") (VNum 1)
                    (VNum 9000) [] (VStr "BTC-USD") Sample.answers eq_refl)).
  reflexivity.
Defined.

(** ** What every method awaits *)

Ltac split_cases :=
  repeat (simpl;
          match goal with
          | |- context [if ?b then _ else _] => destruct b
          | |- context [bind ?x _] => destruct x
          | |- context [match ?x with Return _ => _ | Throw _ => _ end] =>
              destruct x
          end).

Ltac trace_shape :=
  split_cases; simpl;
  first [ split; [unfold at_most_one_request; simpl; lia
                 | eexists; split; reflexivity]
        | unfold at_most_one_request; simpl; lia ].

(** X26.  No method calls more than one endpoint, whatever the answers
    are: nothing is retried and nothing is fetched twice.  Every method
    but [fetchMarkets], [fetchTime] and [getPaymentMethods] awaits
    [loadMarkets] once, before anything else. *)
Theorem one_request_per_call :
  forall (rt : Runtime) (this : Exchange) (base : Inherited)
         (h : forall T, event T -> T),
    let once {A : Type} (p : prog A) :=
      at_most_one_request (fst (run h p)) in
    let loaded {A : Type} (p : prog A) :=
      at_most_one_request (fst (run h p))
      /\ loads_markets_first (fst (run h p)) in
    once (fetchMarkets rt this)
    /\ once (fetchTime this)
    /\ once getPaymentMethods
    /\ (forall symbol timeframe since limit params,
          loaded (fetchOHLCV rt this symbol timeframe since limit params))
    /\ (forall symbol params, loaded (fetchOrderBook base symbol params))
    /\ (forall symbol since limit params,
          loaded (fetchTrades this base symbol since limit params))
    /\ (forall symbol since limit params,
          loaded (fetchMyTrades this base symbol since limit params))
    /\ (forall symbol since limit params,
          loaded (fetchOrders this base symbol since limit params))
    /\ (forall symbol since limit params,
          loaded (fetchOpenOrders this base symbol since limit params))
    /\ (forall symbol since limit params,
          loaded (fetchClosedOrders this base symbol since limit params))
    /\ (forall symbol type side amount price params,
          loaded (createOrder base symbol type side amount price params))
    /\ (forall id_ symbol params, loaded (cancelOrder id_ symbol params))
    /\ (forall currency amount address params,
          loaded (deposit this currency amount address params))
    /\ (forall currency amount address tag params,
          loaded (withdraw this currency amount address tag params)).
Proof.
  intros rt this base h once loaded. subst once loaded. cbv beta.
  repeat match goal with
         | |- _ /\ _ => split
         end;
    intros;
    unfold fetchMarkets, fetchTime, getPaymentMethods, fetchOHLCV,
      fetchOHLCV_request, fetchOrderBook, fetchTrades, fetchMyTrades,
      fetchOrders, fetchOpenOrders, fetchClosedOrders, createOrder,
      cancelOrder, deposit, withdraw;
    trace_shape.
Qed.
